(** * Smart Quiz: the quiz session and the score ledger

    A shallow embedding of the two programs of the repository:

    - the Express backend ([Server], from the file that defines [readDb],
      [writeDb] and the three routes), and
    - the React component [App] ([App], from the file that defines
      [handleGenerateQuiz], [handleSubmitQuiz] and [handleAnswerSelect]).

    JavaScript values are modelled in [Js].  What is idealised is said
    where it is done; in short: numbers are integers, a string is a
    sequence of code units below 256, the text of a file or of a reply is
    held as what [JSON.parse] makes of it, and the transport between the
    component and the backend always delivers. *)

From Stdlib Require Import ZArith.
From stdpp Require Import gmap strings list pretty.

#[local] Set Warnings "-register-all".

(** ** JavaScript values *)

Module Js.

(** A value that JSON can carry.  [undefined] is no JSON value: a variable
    or a property that may be [undefined] has type [option json], and
    [None] is [undefined]. *)
Inductive json : Type :=
| JNull
| JBool (b : bool)
| JNum (n : Z)
| JStr (s : string)
| JArr (xs : list json)
| JObj (props : gmap string json).

(** [!!v]: the falsy values are [null], [false], [0], the empty string
    (and [undefined]). *)
Definition truthy (v : json) : bool :=
  match v with
  | JNull => false
  | JBool b => b
  | JNum n => negb (n =? 0)%Z
  | JStr s => negb (String.eqb s "")
  | JArr _ | JObj _ => true
  end.

Definition truthy_opt (v : option json) : bool :=
  match v with
  | Some x => truthy x
  | None => false
  end.

(** Exceptions, and the outcome of an expression that may throw. *)
Inductive error : Type :=
| TypeError
| SyntaxError
| RangeError
| SystemError
| AxiosError.

Inductive completion (A : Type) : Type :=
| Return (a : A)
| Throw (e : error).

Arguments Return {A} a.
Arguments Throw {A} e.

#[export] Instance completion_ret : MRet completion := fun A a => Return a.

#[export] Instance completion_bind : MBind completion := fun A B f c =>
  match c with
  | Return a => f a
  | Throw e => Throw e
  end.

(** [try { c } catch (e) { handler e }], for a block that yields a value. *)
Definition try_catch {A : Type} (c : completion A) (handler : error -> A) : A :=
  match c with
  | Return a => a
  | Throw e => handler e
  end.

(** The properties every plain object inherits from [Object.prototype]:
    reading one of these names from an object that has no property of its
    own under it yields the inherited member, which is a function (an
    object for [__proto__]), never [undefined]. *)
Definition Object_prototype : list string :=
  [ "constructor"; "__defineGetter__"; "__defineSetter__"; "hasOwnProperty";
    "__lookupGetter__"; "__lookupSetter__"; "isPrototypeOf";
    "propertyIsEnumerable"; "toString"; "valueOf"; "__proto__";
    "toLocaleString" ].

(** What [obj[key]] evaluates to, for a plain object [obj]. *)
Inductive member : Type :=
| Undefined
| Own (v : json)
| Inherited (k : string).

Definition get (obj : gmap string json) (key : string) : member :=
  match obj !! key with
  | Some v => Own v
  | None => if bool_decide (key ∈ Object_prototype) then Inherited key else Undefined
  end.

Definition member_truthy (m : member) : bool :=
  match m with
  | Undefined => false
  | Own v => truthy v
  | Inherited _ => true
  end.

(** [target.push(x)]: only an array has [push]; on anything else the call
    throws (reading [push] from [undefined] or [null], or calling what is
    no function).  The result is the array after the call. *)
Definition push (target : member) (x : json) : completion json :=
  match target with
  | Own (JArr xs) => Return (JArr (xs ++ [x]))
  | _ => Throw TypeError
  end.

(** [haystack.includes(needle)] on strings. *)
Fixpoint includes (needle haystack : string) : bool :=
  String.prefix needle haystack ||
  match haystack with
  | EmptyString => false
  | String _ rest => includes needle rest
  end.

(** The double quote, for string constants that hold one. *)
Definition dquote : string := String (Ascii.ascii_of_nat 34) EmptyString.

End Js.

(** ** The backend *)

Module Server.
Import Js.

(** *** The database file

    The text of [db.json] is held as what the code makes of it: the empty
    string, a text [JSON.parse] rejects, or the text of a JSON object.
    (A text that parses to something else than an object is outside the
    model; [writeDb] never writes one.) *)
Inductive text : Type :=
| Blank
| Garbage
| Doc (db : gmap string json).

Inductive file : Type :=
| Absent
| Unreadable
| Holding (t : text).

Record disk : Type := {
  db_json : file;
  accepts_writes : bool
}.

Definition existsSync (d : disk) : bool :=
  match db_json d with
  | Absent => false
  | _ => true
  end.

Definition readFileSync (d : disk) : completion text :=
  match db_json d with
  | Holding t => Return t
  | _ => Throw SystemError
  end.

Definition writeFileSync (d : disk) (t : text) : completion disk :=
  if accepts_writes d
  then Return {| db_json := Holding t; accepts_writes := accepts_writes d |}
  else Throw SystemError.

Definition JSON_parse (t : text) : completion (gmap string json) :=
  match t with
  | Doc db => Return db
  | _ => Throw SyntaxError
  end.

Definition JSON_stringify (db : gmap string json) : text := Doc db.

Definition nonempty (t : text) : bool :=
  match t with
  | Blank => false
  | _ => true
  end.

(** [readDb], lines 21-34. *)
Definition readDb (d : disk) : gmap string json :=
  try_catch
    (if negb (existsSync d) then Return ∅
     else
       data ← readFileSync d;
       if nonempty data then JSON_parse data else Return ∅)
    (fun _ => ∅).

(** [writeDb], lines 37-43: a failed write is logged and nothing else. *)
Definition writeDb (data : gmap string json) (d : disk) : disk :=
  try_catch (writeFileSync d (JSON_stringify data)) (fun _ => d).

(** *** Responses *)

Inductive payload : Type :=
| Json (v : json)
| NoContent
| ErrorPage.

Record response : Type := {
  status : nat;
  body : payload
}.

(** [res.status(code).json({ error: message })] *)
Definition error_json (code : nat) (message : string) : response :=
  {| status := code; body := Json (JObj {[ "error" := JStr message ]}) |}.

(** What Express answers when a handler throws. *)
Definition uncaught : response := {| status := 500; body := ErrorPage |}.

(** [res.json(m)]: the body is [JSON.stringify(m)], which is no text at
    all for a function, and the empty object for [Object.prototype]. *)
Definition res_json (m : member) : response :=
  {| status := 200;
     body := match m with
             | Own v => Json v
             | Inherited k => if String.eqb k "__proto__" then Json (JObj ∅) else NoContent
             | Undefined => NoContent
             end |}.

(** *** GET /api/get-scores, lines 102-114

    [username] is [req.query.username]: absent, or a string. *)
Definition get_scores (username : option string) (d : disk) : response :=
  match username with
  | None | Some EmptyString => error_json 400 "Username is required."
  | Some username =>
      let db := readDb d in
      let userScores :=
        if member_truthy (get db username) then get db username else Own (JArr []) in
      res_json userScores
  end.

(** *** POST /api/save-score, lines 121-146

    The body of the request: each field is absent or a JSON value; the
    user name, used as a property name, is a string. *)
Record score_request : Type := {
  username : option string;
  topic : option json;
  score : option json;
  total : option json;
  timestamp : option json
}.

Definition with_property (k : string) (v : option json)
    (o : gmap string json) : gmap string json :=
  match v with
  | Some x => <[k := x]> o
  | None => o
  end.

(** [{ topic, score, total, timestamp }], as it reaches the file:
    [JSON.stringify] leaves out a property whose value is [undefined]. *)
Definition scoreData (req : score_request) : json :=
  JObj (with_property "topic" (topic req)
       (with_property "score" (score req)
       (with_property "total" (total req)
       (with_property "timestamp" (timestamp req) ∅)))).

Definition save_score (req : score_request) (d : disk) : response * disk :=
  match username req with
  | None | Some EmptyString =>
      (error_json 400 "Username and score data are required.", d)
  | Some username =>
      if negb (truthy_opt (topic req))
      then (error_json 400 "Username and score data are required.", d)
      else
        let db := readDb d in
        let db :=
          if negb (member_truthy (get db username))
          then <[username := JArr []]> db
          else db in
        match push (get db username) (scoreData req) with
        | Throw _ => (uncaught, d)
        | Return scores =>
            let db := <[username := scores]> db in
            ({| status := 201;
                body := Json (JObj {[ "message" := JStr "Score saved successfully." ]}) |},
             writeDb db d)
        end
  end.

(** *** POST /api/generate-quiz, lines 51-95 *)

(** The request sent to the generation provider. *)
Record gemini_request : Type := {
  apiUrl : string;
  userQuery : string;
  systemInstruction : string
}.

(** The provider's answer, as far as the handler looks at it: the request
    fails; it succeeds but [data.candidates[0].content.parts[0].text]
    cannot be read; or that text is there, and [JSON.parse] rejects it or
    makes a value of it. *)
Inductive gemini_reply : Type :=
| Failed
| NoCandidate
| Unparseable
| Parsed (quizJson : json).

Definition systemPrompt : string :=
  "You are a helpful quiz generation assistant.
  Your task is to generate a 10-question multiple-choice quiz on a given topic.
  You must return the response as a valid JSON object only, with no other text, markdown, or " ++ dquote ++ " ```json " ++ dquote ++ " tags.
  
  The JSON object must have a single key " ++ dquote ++ "questions" ++ dquote ++ ", which is an array of 10 question objects.
  Each question object must have the following keys:
  - " ++ dquote ++ "question" ++ dquote ++ ": A string (the question text)
  - " ++ dquote ++ "options" ++ dquote ++ ": An array of 4 strings (the options)
  - " ++ dquote ++ "correctIndex" ++ dquote ++ ": A number (0-3) representing the index of the correct option
  - " ++ dquote ++ "explanation" ++ dquote ++ ": A string (a brief explanation of the correct answer)".

(** [`${x}`] for an [x] that is a string or [undefined]. *)
Definition interpolate (x : option string) : string :=
  match x with
  | Some text => text
  | None => "undefined"
  end.

Definition quiz_request (apiKey topic : option string) : gemini_request :=
  {| apiUrl :=
       "https://generativelanguage.googleapis.com/v1beta/models/gemini-2.5-flash-preview-09-2025:generateContent?key=" ++ interpolate apiKey;
     userQuery :=
       "Generate the 10-question quiz on the topic: " ++ dquote ++ interpolate topic ++ dquote;
     systemInstruction := systemPrompt |}.

(** The body of the [try] block, lines 78-89. *)
Definition ask (reply : gemini_reply) : completion response :=
  match reply with
  | Failed => Throw AxiosError
  | NoCandidate => Throw TypeError
  | Unparseable => Throw SyntaxError
  | Parsed quizJson => Return {| status := 200; body := Json quizJson |}
  end.

(** The key check of line 56: [!apiKey || apiKey.includes('paste_your')]. *)
Definition key_rejected (apiKey : option string) : bool :=
  match apiKey with
  | None | Some EmptyString => true
  | Some key => includes "paste_your" key
  end.

(** The handler answers, and reports the requests it sent to the provider,
    in order.  [apiKey] is [process.env.GEMINI_API_KEY], [gemini] the
    provider, [topic] is [req.body.topic]. *)
Definition generate_quiz (apiKey : option string)
    (gemini : gemini_request -> gemini_reply) (topic : option string)
    : response * list gemini_request :=
  if key_rejected apiKey
  then (error_json 500 "Server Error: API Key is missing or invalid in .env file.", [])
  else
    let request := quiz_request apiKey topic in
    (try_catch (ask (gemini request))
       (fun _ => error_json 500 "Failed to generate quiz from AI."),
     [request]).

End Server.

(** ** The component *)

Module App.
Import Js.

(** *** State

    The [useState] cells the handlers below read or write.  The cells that
    only feed the display of past scores ([usernameInput], [pastScores],
    [loadingScores]) are left out, and with them [fetchScores], which
    reads the ledger and changes nothing in it. *)

(** An entry of [userAnswers]: [null], a number, or [undefined] (which is
    also what reading a hole of the array gives). *)
Inductive slot : Type :=
| Null
| Chosen (n : Z)
| Undef.

(** [{ ...q, userAnswer, isCorrect }]: the properties of [q], and two more. *)
Record feedback_entry : Type := {
  question : json;
  userAnswer : option json;
  isCorrect : bool
}.

Record quiz_results : Type := {
  score : Z;
  total : nat;
  feedback : list feedback_entry
}.

Record state : Type := {
  currentUser : option string;
  topic : string;
  quizData : option json;
  userAnswers : option (list slot);
  results : option quiz_results;
  isLoading : bool;
  error : string
}.

Definition setQuizData (v : option json) (s : state) : state :=
  {| currentUser := currentUser s; topic := topic s; quizData := v;
     userAnswers := userAnswers s; results := results s;
     isLoading := isLoading s; error := error s |}.

Definition setUserAnswers (v : option (list slot)) (s : state) : state :=
  {| currentUser := currentUser s; topic := topic s; quizData := quizData s;
     userAnswers := v; results := results s;
     isLoading := isLoading s; error := error s |}.

Definition setResults (v : option quiz_results) (s : state) : state :=
  {| currentUser := currentUser s; topic := topic s; quizData := quizData s;
     userAnswers := userAnswers s; results := v;
     isLoading := isLoading s; error := error s |}.

Definition setIsLoading (v : bool) (s : state) : state :=
  {| currentUser := currentUser s; topic := topic s; quizData := quizData s;
     userAnswers := userAnswers s; results := results s;
     isLoading := v; error := error s |}.

Definition setError (v : string) (s : state) : state :=
  {| currentUser := currentUser s; topic := topic s; quizData := quizData s;
     userAnswers := userAnswers s; results := results s;
     isLoading := isLoading s; error := v |}.

(** What [renderMainApp] shows, lines 176, 193 and 218: the topic form, the
    quiz, or the results. *)
Inductive phase : Type :=
| Idle
| Active
| Scored.

Definition phase_of (s : state) : phase :=
  match results s with
  | Some _ => Scored
  | None => if truthy_opt (quizData s) then Active else Idle
  end.

(** The backend the component talks to: its environment, the provider it
    calls, and its disk. *)
Record backend : Type := {
  GEMINI_API_KEY : option string;
  gemini : Server.gemini_request -> Server.gemini_reply;
  storage : Server.disk
}.

Definition with_storage (d : Server.disk) (b : backend) : backend :=
  {| GEMINI_API_KEY := GEMINI_API_KEY b; gemini := gemini b; storage := d |}.

(** *** Reading values *)

(** [v.key], for the property names the component reads ([questions],
    [correctIndex], [options]): no prototype defines them, so only an
    object can have one, and reading from [null] throws. *)
Definition prop (v : json) (key : string) : completion (option json) :=
  match v with
  | JNull => Throw TypeError
  | JObj props => Return (props !! key)
  | _ => Return None
  end.

(** [v.length], for a [v] that is not [null]. *)
Definition length_of (v : json) : option json :=
  match v with
  | JArr xs => Some (JNum (Z.of_nat (length xs)))
  | JStr s => Some (JNum (Z.of_nat (String.length s)))
  | JObj props => props !! "length"
  | _ => None
  end.

(** The white space [trim] removes, among the code units below 256. *)
Definition is_space (c : Ascii.ascii) : bool :=
  let n := Ascii.nat_of_ascii c in
  ((9 <=? n) && (n <=? 13)) || (n =? 32) || (n =? 160).

Fixpoint trimStart (s : string) : string :=
  match s with
  | EmptyString => EmptyString
  | String c rest => if is_space c then trimStart rest else s
  end.

Definition trim (s : string) : string :=
  String.rev (trimStart (String.rev (trimStart s))).

(** [a === b] for a property of a question and an entry of [userAnswers]:
    no conversion; both [undefined], both [null], or the same number. *)
Definition strict_eq (a : option json) (b : slot) : bool :=
  match a, b with
  | None, Undef => true
  | Some JNull, Null => true
  | Some (JNum n), Chosen k => (n =? k)%Z
  | _, _ => false
  end.

(** The property name an entry of [userAnswers] stands for. *)
Definition slot_key (a : slot) : string :=
  match a with
  | Null => "null"
  | Chosen n => pretty n
  | Undef => "undefined"
  end.

(** [options[a]]: reading from [undefined] or [null] throws; an array or a
    string is indexed by a number within its length; an object by the
    name of the entry. *)
Definition at_slot (options : option json) (a : slot) : completion (option json) :=
  match options with
  | None | Some JNull => Throw TypeError
  | Some (JArr xs) =>
      Return match a with
             | Chosen n => if (0 <=? n)%Z then xs !! Z.to_nat n else None
             | _ => None
             end
  | Some (JStr s) =>
      Return match a with
             | Chosen n =>
                 if (0 <=? n)%Z
                 then (fun c => JStr (String c EmptyString)) <$> String.get (Z.to_nat n) s
                 else None
             | _ => None
             end
  | Some (JObj props) => Return (props !! slot_key a)
  | Some _ => Return None
  end.

(** [xs[i] = v] on a copy of the array: within the length the entry is
    replaced; past the end the array grows, leaving holes; an [i] that is
    no array index (negative, or beyond the largest index) names an
    ordinary property, and no entry changes. *)
Definition assign (xs : list slot) (i : Z) (v : slot) : list slot :=
  if (i <? 0)%Z then xs
  else
    let n := Z.to_nat i in
    if n <? length xs then <[n := v]> xs
    else if (i <? 2 ^ 32 - 1)%Z then xs ++ replicate (n - length xs) Undef ++ [v]
    else xs.

(** [new Array(len).fill(null)], where [len] is the value of
    [questions.length]: a number gives an array of that length, if it is
    one an array can have; any other value becomes the only entry. *)
Definition new_Array_fill (len : option json) : completion (list slot) :=
  match len with
  | Some (JNum n) =>
      if (0 <=? n)%Z && (n <? 2 ^ 32)%Z then Return (replicate (Z.to_nat n) Null)
      else Throw RangeError
  | _ => Return [Null]
  end.

(** *** handleAnswerSelect, lines 143-147 *)
Definition handleAnswerSelect (questionIndex optionIndex : Z) (s : state) : state :=
  match userAnswers s with
  | None => s
  | Some answers =>
      let newAnswers := assign answers questionIndex (Chosen optionIndex) in
      setUserAnswers (Some newAnswers) s
  end.

(** *** handleSubmitQuiz, lines 105-141 *)

Definition is_null (a : slot) : bool :=
  match a with
  | Null => true
  | _ => false
  end.

(** The callback of [quizData.map], lines 115-119, with the counter it
    increments passed in and out. *)
Definition mark (answers : list slot) (i : nat) (q : json) (score : Z)
    : completion (feedback_entry * Z) :=
  let answer := default Undef (answers !! i) in
  correctIndex ← prop q "correctIndex";
  let isCorrect := strict_eq correctIndex answer in
  let score := if isCorrect then (score + 1)%Z else score in
  options ← prop q "options";
  userAnswer ← at_slot options answer;
  Return ({| question := q; userAnswer := userAnswer; isCorrect := isCorrect |}, score).

Fixpoint map_mark (answers : list slot) (i : nat) (qs : list json) (score : Z)
    : completion (list feedback_entry * Z) :=
  match qs with
  | [] => Return ([], score)
  | q :: rest =>
      '(entry, score) ← mark answers i q score;
      '(entries, score) ← map_mark answers (S i) rest score;
      Return (entry :: entries, score)
  end.

(** [quizData.map(f)]: only an array has [map]. *)
Definition elements (v : option json) : completion (list json) :=
  match v with
  | Some (JArr xs) => Return xs
  | _ => Throw TypeError
  end.

(** [now] is [new Date().toISOString()].  The handler is asynchronous: when
    it throws, the state is left as it was at that point. *)
Definition handleSubmitQuiz (now : string) (b : backend) (s : state) : state * backend :=
  match userAnswers s with
  | None => (s, b)
  | Some answers =>
      if existsb is_null answers
      then (setError "Please answer all questions." s, b)
      else
        let s := setIsLoading true s in
        match (qs ← elements (quizData s);
               marked ← map_mark answers 0 qs 0%Z;
               Return (qs, marked)) with
        | Throw _ => (s, b)
        | Return (qs, (feedback, score)) =>
            let finalResults :=
              {| score := score; total := length qs; feedback := feedback |} in
            let s := setResults (Some finalResults) s in
            let newScoreData :=
              {| Server.username := currentUser s;
                 Server.topic := Some (JStr (topic s));
                 Server.score := Some (JNum score);
                 Server.total := Some (JNum (Z.of_nat (length qs)));
                 Server.timestamp := Some (JStr now) |} in
            let '(_, d) := Server.save_score newScoreData (storage b) in
            (setIsLoading false s, with_storage d b)
        end
  end.

(** *** handleGenerateQuiz, lines 80-103 *)

(** A block that updates the state and may throw: the state it leaves is
    the one reached when it returned or threw. *)
Definition action (A : Type) : Type := state -> completion A * state.

#[export] Instance action_ret : MRet action := fun A a s => (Return a, s).

#[export] Instance action_bind : MBind action := fun A B f m s =>
  match m s with
  | (Return a, s') => f a s'
  | (Throw e, s') => (Throw e, s')
  end.

Definition lift {A : Type} (c : completion A) : action A := fun s => (c, s).

Definition update (f : state -> state) : action unit := fun s => (Return tt, f s).

(** [try { block } catch (err) { handler } finally { last }] *)
Definition try_catch_finally (block : action unit) (handler last : state -> state)
    (s : state) : state :=
  match block s with
  | (Return _, s') => last s'
  | (Throw _, s') => last (handler s')
  end.

(** [await axios.post(url, body)] against a handler that answered [res]:
    a status outside 2xx rejects; otherwise [response.data] is the JSON of
    the body, or its text (here empty) when it is no JSON. *)
Definition response_data (res : Server.response) : completion json :=
  if (200 <=? Server.status res) && (Server.status res <? 300)
  then Return match Server.body res with
              | Server.Json v => v
              | _ => JStr ""
              end
  else Throw AxiosError.

(** [a || b] *)
Definition or_else (a : option json) (b : json) : json :=
  match a with
  | Some v => if truthy v then v else b
  | None => b
  end.

Section Engine.

(** What [x > 0] yields when [x] is a string, an array or an object: the
    engine converts [x] to a number first (through [valueOf], [toString]
    and the grammar of numeric strings), and may throw on the way.  The
    handlers are defined for any such conversion. *)
Variable converted_gt_zero : json -> completion bool.

(** [x > 0] *)
Definition gt_zero (x : option json) : completion bool :=
  match x with
  | None | Some JNull => Return false
  | Some (JBool b) => Return b
  | Some (JNum n) => Return (0 <? n)%Z
  | Some v => converted_gt_zero v
  end.

(** Lines 92-97. *)
Definition accept (questions : json) : action unit :=
  accepted ← (if truthy questions then lift (gt_zero (length_of questions))
              else mret false);
  if accepted : bool then
    update (setQuizData (Some questions));;
    blank ← lift (new_Array_fill (length_of questions));
    update (setUserAnswers (Some blank))
  else update (setError "Failed to generate quiz.").

(** Lines 90-97, with [data] for [response.data]. *)
Definition receive (data : json) : action unit :=
  q ← lift (prop data "questions");
  accept (or_else q data).

Definition handleGenerateQuiz (b : backend) (s : state) : state :=
  if negb (truthy (JStr (trim (topic s)))) then s
  else
    let s := setResults None (setQuizData None (setError "" (setIsLoading true s))) in
    try_catch_finally
      (let '(res, _) :=
         Server.generate_quiz (GEMINI_API_KEY b) (gemini b) (Some (topic s)) in
       data ← lift (response_data res);
       receive data)
      (setError "Error connecting to AI service.")
      (setIsLoading false)
      s.

End Engine.

(** *** handleLogin, handleLogout, handleTakeAnotherQuiz and the topic field,
    lines 48-78 and 182 *)

Definition setCurrentUser (v : option string) (s : state) : state :=
  {| currentUser := v; topic := topic s; quizData := quizData s;
     userAnswers := userAnswers s; results := results s;
     isLoading := isLoading s; error := error s |}.

Definition setTopic (v : string) (s : state) : state :=
  {| currentUser := currentUser s; topic := v; quizData := quizData s;
     userAnswers := userAnswers s; results := results s;
     isLoading := isLoading s; error := error s |}.

(** The cells as [useState] creates them. *)
Definition initial : state :=
  {| currentUser := None; topic := ""; quizData := None; userAnswers := None;
     results := None; isLoading := false; error := "" |}.

(** [usernameInput] is the text of the name field. *)
Definition handleLogin (usernameInput : string) (s : state) : state :=
  if truthy (JStr (trim usernameInput))
  then setResults None (setQuizData None (setTopic ""
         (setError "" (setCurrentUser (Some (trim usernameInput)) s))))
  else s.

(** Of the six cells it resets, four are modelled. *)
Definition handleLogout (s : state) : state :=
  setResults None (setQuizData None (setTopic "" (setCurrentUser None s))).

Definition handleTakeAnotherQuiz (s : state) : state :=
  setError "" (setResults None (setUserAnswers None (setQuizData None (setTopic "" s)))).

End App.

(** * Properties *)

(** ** Vocabulary *)

Import Js.

(** A disk on which [db.json] was never written. *)
Definition no_file : Server.disk :=
  {| Server.db_json := Server.Absent; Server.accepts_writes := true |}.

(** A disk on which [db.json] holds the empty object. *)
Definition empty_ledger : Server.disk :=
  {| Server.db_json := Server.Holding (Server.Doc ∅); Server.accepts_writes := true |}.

(** [res.json(v)] *)
Definition ok (v : json) : Server.response :=
  {| Server.status := 200; Server.body := Server.Json v |}.

(** The request the component sends for a quiz on Space, scored 7 of 10. *)
Definition attempt (u : string) : Server.score_request :=
  {| Server.username := Some u;
     Server.topic := Some (JStr "Space");
     Server.score := Some (JNum 7);
     Server.total := Some (JNum 10);
     Server.timestamp := Some (JStr "2025-01-01T00:00:00.000Z") |}.

(** A request with a topic, no score, no timestamp, and a string for the
    total. *)
Definition sparse_attempt (u : string) : Server.score_request :=
  {| Server.username := Some u;
     Server.topic := Some (JStr "Space");
     Server.score := None;
     Server.total := Some (JStr "ten");
     Server.timestamp := None |}.

(** A provider that is never reached. *)
Definition silent : Server.gemini_request -> Server.gemini_reply :=
  fun _ => Server.Failed.

(** A question that can be marked: an object whose [options] can be
    indexed. *)
Definition answerable (q : json) : Prop :=
  exists props o, q = JObj props /\ props !! "options" = Some o /\ o <> JNull.

Definition correctIndex (q : json) : option json :=
  match q with
  | JObj props => props !! "correctIndex"
  | _ => None
  end.

(** The answer [a] is the question's [correctIndex]. *)
Definition agrees (q : json) (a : Z) : bool :=
  match correctIndex q with
  | Some (JNum c) => (c =? a)%Z
  | _ => false
  end.

(** The number of questions answered as their [correctIndex] says. *)
Fixpoint matches (qs : list json) (ans : list Z) : nat :=
  match qs, ans with
  | q :: qs', a :: ans' => (if agrees q a then 1 else 0) + matches qs' ans'
  | _, _ => 0
  end.

(** The questions the component finds in a reply: the reply itself when
    it is an array, its [questions] when that is one. *)
Definition question_list (reply : json) : option (list json) :=
  match reply with
  | JArr qs => Some qs
  | JObj props =>
      match props !! "questions" with
      | Some (JArr qs) => Some qs
      | _ => None
      end
  | _ => None
  end.

(** The state when the request for a quiz is sent, lines 83-86. *)
Definition requesting (s : App.state) : App.state :=
  App.setResults None
    (App.setQuizData None (App.setError "" (App.setIsLoading true s))).

(** Data for the examples. *)

Definition sample_question (text : string) (correct : Z) : json :=
  JObj (<["question" := JStr text]>
       (<["options" := JArr [JStr "a"; JStr "b"; JStr "c"; JStr "d"]]>
       (<["correctIndex" := JNum correct]>
       (<["explanation" := JStr "because"]> ∅)))).

(** One question, with two options and a [correctIndex] that names none. *)
Definition bad_question : json :=
  JObj (<["question" := JStr "?"]>
       (<["options" := JArr [JStr "a"; JStr "b"]]>
       (<["correctIndex" := JNum 7]>
       (<["explanation" := JStr "because"]> ∅)))).

(** An engine for the examples: comparing a string, an array or an object
    with [0] comes out false. *)
Definition no_conversion : json -> completion bool := fun _ => Return false.

(** A backend whose provider answers every request with [reply]. *)
Definition replying (reply : json) : App.backend :=
  {| App.GEMINI_API_KEY := Some "AIza-key";
     App.gemini := fun _ => Server.Parsed reply;
     App.storage := no_file |}.

(** A session with no quiz. *)
Definition idle : App.state :=
  {| App.currentUser := Some "alice"; App.topic := "Space"; App.quizData := None;
     App.userAnswers := None; App.results := None;
     App.isLoading := false; App.error := "" |}.

(** Ten questions, and ten answers of which the first seven are right. *)
Definition ten_questions : list json :=
  (fun c => sample_question "which?" c) <$> [0; 1; 2; 3; 0; 1; 2; 3; 0; 1]%Z.

Definition ten_answers : list Z := [0; 1; 2; 3; 0; 1; 2; 0; 1; 2]%Z.

(** The user selects [answers], one question after the other from
    question [i] on. *)
Fixpoint select_from (i : Z) (answers : list Z) (s : App.state) : App.state :=
  match answers with
  | [] => s
  | a :: rest => select_from (i + 1) rest (App.handleAnswerSelect i a s)
  end.

(** A session on a quiz of two questions, none answered yet. *)
Definition two_unanswered : App.state :=
  {| App.currentUser := Some "alice"; App.topic := "Space";
     App.quizData := Some (JArr [sample_question "first" 0; sample_question "second" 3]);
     App.userAnswers := Some [App.Null; App.Null];
     App.results := None; App.isLoading := false; App.error := "" |}.

(** [res.status(201).json({ message })] *)
Definition created : Server.response :=
  {| Server.status := 201;
     Server.body := Server.Json (JObj {[ "message" := JStr "Score saved successfully." ]}) |}.

(** The attempts [push] finds under a user name: those of the array
    stored there, none when nothing truthy is stored and the name is not
    inherited; [None] when what is found is no array. *)
Definition history (db : gmap string json) (u : string) : option (list json) :=
  match get db u with
  | Own (JArr xs) => Some xs
  | Own v => if truthy v then None else Some []
  | Undefined => Some []
  | Inherited _ => None
  end.

(** Every entry of the database is an array. *)
Definition well_formed (db : gmap string json) : Prop :=
  forall k v, db !! k = Some v -> exists xs, v = JArr xs.

(** The requests reach [save-score] one after the other. *)
Fixpoint save_all (reqs : list Server.score_request) (d : Server.disk) : Server.disk :=
  match reqs with
  | [] => d
  | req :: rest => save_all rest (Server.save_score req d).2
  end.

(** The request [handleSubmitQuiz] sends, lines 125-131. *)
Definition newScoreData (s : App.state) (score : Z) (total : nat) (now : string)
    : Server.score_request :=
  {| Server.username := App.currentUser s;
     Server.topic := Some (JStr (App.topic s));
     Server.score := Some (JNum score);
     Server.total := Some (JNum (Z.of_nat total));
     Server.timestamp := Some (JStr now) |}.

(** The number of feedback entries marked correct. *)
Definition correct_entries (entries : list App.feedback_entry) : nat :=
  length (List.filter App.isCorrect entries).

(** A question on which the callback of [handleSubmitQuiz] throws: [null],
    or one whose [options] are missing or [null]. *)
Definition unmarkable (q : json) : Prop :=
  q = JNull \/
  exists props, q = JObj props /\
    (props !! "options" = None \/ props !! "options" = Some JNull).

Definition first_char (s : string) : option Ascii.ascii :=
  match s with
  | EmptyString => None
  | String c _ => Some c
  end.

Fixpoint last_char (s : string) : option Ascii.ascii :=
  match s with
  | EmptyString => None
  | String c EmptyString => Some c
  | String _ rest => last_char rest
  end.

(** The string holds white space only. *)
Fixpoint all_space (s : string) : bool :=
  match s with
  | EmptyString => true
  | String c rest => App.is_space c && all_space rest
  end.

(** What the user does, and what the provider does when it is asked. *)
Inductive event : Type :=
| Login (usernameInput : string)
| Logout
| TypeTopic (value : string)
| Generate (gemini : Server.gemini_request -> Server.gemini_reply)
| Select (questionIndex optionIndex : Z)
| Submit (now : string)
| TakeAnother.

Definition with_gemini (g : Server.gemini_request -> Server.gemini_reply)
    (b : App.backend) : App.backend :=
  {| App.GEMINI_API_KEY := App.GEMINI_API_KEY b; App.gemini := g;
     App.storage := App.storage b |}.

(** One event, on the component and the backend. *)
Definition step (conv : json -> completion bool) (e : event)
    (w : App.state * App.backend) : App.state * App.backend :=
  match e with
  | Login usernameInput => (App.handleLogin usernameInput w.1, w.2)
  | Logout => (App.handleLogout w.1, w.2)
  | TypeTopic value => (App.setTopic value w.1, w.2)
  | Generate g => (App.handleGenerateQuiz conv (with_gemini g w.2) w.1, w.2)
  | Select questionIndex optionIndex =>
      (App.handleAnswerSelect questionIndex optionIndex w.1, w.2)
  | Submit now => App.handleSubmitQuiz now w.2 w.1
  | TakeAnother => (App.handleTakeAnotherQuiz w.1, w.2)
  end.

Fixpoint run (conv : json -> completion bool) (events : list event)
    (w : App.state * App.backend) : App.state * App.backend :=
  match events with
  | [] => w
  | e :: rest => run conv rest (step conv e w)
  end.

(** Results and the quiz they were computed from: one feedback entry per
    question, the total their number, the score the number of entries
    marked correct. *)
Definition results_fit (s : App.state) : Prop :=
  forall r, App.results s = Some r ->
    exists qs, App.quizData s = Some (JArr qs) /\
      App.total r = length qs /\
      length (App.feedback r) = length qs /\
      App.score r = Z.of_nat (correct_entries (App.feedback r)) /\
      (0 <= App.score r <= Z.of_nat (App.total r))%Z.

(** A session whose quiz holds [null] for its only question, answered. *)
Definition null_question_answered : App.state :=
  {| App.currentUser := Some "alice"; App.topic := "Space";
     App.quizData := Some (JArr [JNull]); App.userAnswers := Some [App.Chosen 0];
     App.results := None; App.isLoading := false; App.error := "" |}.

(** The object [save-score] stores for the request of [handleSubmitQuiz]. *)
Definition stored_attempt (topic : string) (score : Z) (total : nat) (now : string) : json :=
  JObj (<["topic" := JStr topic]>
       (<["score" := JNum score]>
       (<["total" := JNum (Z.of_nat total)]>
       {[ "timestamp" := JStr now ]}))).

(** An event that is neither a login nor a logout. *)
Definition keeps_user (e : event) : Prop :=
  match e with
  | Login _ | Logout => False
  | _ => True
  end.

(** How the block of [handleGenerateQuiz] (lines 88-97) leaves the state
    [s1], started in [s0]: four cells are never written; when the block
    returns, it has either stored a truthy quiz with answers that are all
    [null], or set the message that nothing was generated. *)
Definition block_outcome (s0 : App.state) (c : completion unit) (s1 : App.state) : Prop :=
  App.results s1 = App.results s0 /\ App.currentUser s1 = App.currentUser s0 /\
  App.topic s1 = App.topic s0 /\ App.isLoading s1 = App.isLoading s0 /\
  match c with
  | Return _ =>
      (App.error s1 = App.error s0 /\
       exists q answers, App.quizData s1 = Some q /\ truthy q = true /\
         App.userAnswers s1 = Some answers /\ Forall (eq App.Null) answers) \/
      s1 = App.setError "Failed to generate quiz." s0
  | Throw _ => True
  end.

(** ** The ledger: [readDb], [writeDb] and the two score routes *)

Section Ledger.
Import Server.

Lemma readDb_doc (d : disk) (db : gmap string json) :
  db_json d = Holding (Doc db) -> readDb d = db.
Proof.
  intros H. unfold readDb, existsSync, readFileSync. rewrite H. reflexivity.
Qed.

Lemma readDb_no_doc (d : disk) :
  (forall db, db_json d <> Holding (Doc db)) -> readDb d = ∅.
Proof.
  intros H. unfold readDb, existsSync, readFileSync.
  destruct (db_json d) as [| |[| |db]]; try reflexivity.
  destruct (H db); reflexivity.
Qed.

Lemma writeDb_stores (db : gmap string json) (d : disk) :
  accepts_writes d = true -> readDb (writeDb db d) = db.
Proof.
  intros H. unfold writeDb, writeFileSync. rewrite H. reflexivity.
Qed.

Lemma writeDb_refused (db : gmap string json) (d : disk) :
  accepts_writes d = false -> writeDb db d = d.
Proof.
  intros H. unfold writeDb, writeFileSync. rewrite H. reflexivity.
Qed.

(** Whether or not the write goes through, an entry that the object
    written shares with the file is the same afterwards. *)
Lemma readDb_writeDb_lookup (db : gmap string json) (d : disk) (k : string) :
  readDb d !! k = db !! k -> readDb (writeDb db d) !! k = readDb d !! k.
Proof.
  intros H. destruct (accepts_writes d) eqn:W.
  - rewrite writeDb_stores; [symmetry|]; assumption.
  - rewrite writeDb_refused; [reflexivity | assumption].
Qed.

(** [get-scores] looks at the file through one entry only. *)
Lemma get_scores_entry (u : option string) (d d' : disk) :
  (forall k, u = Some k -> readDb d' !! k = readDb d !! k) ->
  get_scores u d' = get_scores u d.
Proof.
  intros H. destruct u as [[|c k]|]; try reflexivity.
  unfold get_scores, get. rewrite (H _ eq_refl). reflexivity.
Qed.

Lemma get_ordinary (db : gmap string json) (k : string) :
  k ∉ Object_prototype -> db !! k = None -> get db k = Undefined.
Proof.
  intros Hk Hdb. unfold get. rewrite Hdb.
  rewrite bool_decide_eq_false_2; [reflexivity | assumption].
Qed.

Lemma get_own (db : gmap string json) (k : string) (v : json) :
  db !! k = Some v -> get db k = Own v.
Proof. intros H. unfold get. rewrite H. reflexivity. Qed.

Lemma ordinary_name_alice : "alice" ∉ Object_prototype.
Proof. apply (bool_decide_unpack _). reflexivity. Qed.

(** The file after [save-score] differs from the file before in the entry
    of the user named in the request at most. *)
Lemma save_score_frame (req : score_request) (d : disk) (k : string) :
  username req <> Some k ->
  readDb (save_score req d).2 !! k = readDb d !! k.
Proof.
  intros Hk. unfold save_score.
  destruct (username req) as [[|c u]|]; try reflexivity.
  destruct (truthy_opt (topic req)); [|reflexivity]. cbn [negb].
  set (name := String c u) in *.
  assert (Hne : name <> k) by congruence.
  match goal with |- context [push ?m ?x] => destruct (push m x) end; [|reflexivity].
  cbn [snd]. apply readDb_writeDb_lookup.
  rewrite lookup_insert_ne by assumption.
  destruct (negb _); [rewrite lookup_insert_ne by assumption|]; reflexivity.
Qed.

(** The properties of the object stored for an attempt are the fields of
    the request: one that was absent reads as [undefined]. *)
Lemma scoreData_fields (req : score_request) :
  exists props, scoreData req = JObj props /\
    props !! "topic" = topic req /\ props !! "score" = score req /\
    props !! "total" = total req /\ props !! "timestamp" = timestamp req.
Proof.
  eexists. split; [reflexivity|].
  destruct (topic req), (score req), (total req), (timestamp req);
    repeat split; reflexivity.
Qed.

(** When [db.json] is missing, cannot be read, holds the empty string
    or holds a text that [JSON.parse] rejects, [readDb] returns the empty
    object instead of failing, and [get-scores] answers what it answers
    on an empty ledger: never an error for a non-empty user name, and the
    empty history [[]] for every name that [Object.prototype] does not
    define. *)
Theorem readDb_unusable_store_is_empty (d : disk) :
  db_json d = Absent \/ db_json d = Unreadable \/
  db_json d = Holding Garbage \/ db_json d = Holding Blank ->
  readDb d = ∅ /\
  (forall username, get_scores username d = get_scores username empty_ledger) /\
  (forall u, u <> "" -> status (get_scores (Some u) d) = 200) /\
  (forall u, u <> "" -> u ∉ Object_prototype -> get_scores (Some u) d = ok (JArr [])).
Proof.
  intros H.
  assert (E : readDb d = ∅).
  { apply readDb_no_doc. intros db. destruct H as [H|[H|[H|H]]]; rewrite H; discriminate. }
  split; [exact E|]. split; [|split].
  - intros username. apply get_scores_entry. intros k _. rewrite E. reflexivity.
  - intros [|c u] Hu; [congruence|]. reflexivity.
  - intros [|c u] Hu Hp; [congruence|].
    unfold get_scores. rewrite E, (get_ordinary _ _ Hp) by apply lookup_empty.
    reflexivity.
Qed.

Lemma readDb_unusable_store_is_empty_witness :
  readDb no_file = ∅ /\ get_scores (Some "alice") no_file = ok (JArr []).
Proof.
  destruct (readDb_unusable_store_is_empty no_file (or_introl eq_refl)) as (E & _ & _ & G).
  split; [exact E|]. apply G; [discriminate | exact ordinary_name_alice].
Defined.

(** C8, at a failing input: [db.json] holds a text that [JSON.parse]
    rejects, or is missing.  [readDb] returns the empty object instead of
    failing, and the history of [alice] is the empty one.  But for the
    user name [constructor] the history is not: in the empty object
    [db[username]] is the function every object inherits under that
    name, and [get-scores] sends that through [res.json], a body with no
    content. *)
Example get_scores_on_unusable_store_inherited_name :
  readDb no_file = ∅ /\
  readDb {| db_json := Holding Garbage; accepts_writes := true |} = ∅ /\
  get_scores (Some "alice") {| db_json := Holding Garbage; accepts_writes := true |}
  = ok (JArr []) /\
  get_scores (Some "constructor") {| db_json := Holding Garbage; accepts_writes := true |}
  = {| status := 200; body := NoContent |}.
Proof. repeat split; reflexivity. Qed.

(** C9: for distinct user names [u] and [v], a [save-score] request for
    [u] leaves what [get-scores] answers for [v] unchanged, whatever the
    request holds and whatever becomes of it. *)
Theorem save_score_leaves_other_histories (u v : string) (req : score_request) (d : disk) :
  u <> v -> username req = Some u ->
  get_scores (Some v) (save_score req d).2 = get_scores (Some v) d.
Proof.
  intros Huv Hu. apply get_scores_entry. intros k [= <-].
  apply save_score_frame. congruence.
Qed.

Lemma save_score_leaves_other_histories_witness :
  get_scores (Some "bob") (save_score (attempt "alice") no_file).2
  = get_scores (Some "bob") no_file.
Proof.
  apply (save_score_leaves_other_histories "alice" "bob"); [discriminate | reflexivity].
Defined.

(** C4, at a failing input: the user name [constructor], on an empty
    ledger.  [db[username]] is then the function every object inherits
    under that name: it is truthy, so no array is created, and it has no
    [push], so the handler throws.  Express answers 500, nothing is
    written, and [get-scores] afterwards sends that function through
    [res.json]: a body with no content, not a history that ends in the
    attempt. *)
Example save_score_inherited_name_throws :
  save_score (attempt "constructor") no_file = (uncaught, no_file) /\
  get_scores (Some "constructor") (save_score (attempt "constructor") no_file).2
  = {| status := 200; body := NoContent |}.
Proof. split; reflexivity. Qed.

(** C5, at a failing input: the user names [constructor] and [__proto__]
    have no attempts in an empty ledger, and [get-scores] answers with
    the inherited member instead of [[]]: no content for the function,
    the empty object for [Object.prototype]. *)
Example get_scores_inherited_name_not_empty :
  readDb no_file !! "constructor" = None /\
  get_scores (Some "constructor") no_file = {| status := 200; body := NoContent |} /\
  get_scores (Some "__proto__") no_file = ok (JObj ∅).
Proof. repeat split; reflexivity. Qed.

(** C10, at a failing input: a request with a topic, no score, no
    timestamp and a string for the total.  Under the user name [alice]
    it is stored as it is: the fields are not looked at.  Under the user
    name [toString] it does not succeed: the handler throws as in C4, and
    nothing is stored. *)
Example save_score_unvalidated_fields_inherited_name :
  save_score (sparse_attempt "toString") no_file = (uncaught, no_file) /\
  status (save_score (sparse_attempt "alice") no_file).1 = 201 /\
  get_scores (Some "alice") (save_score (sparse_attempt "alice") no_file).2
  = ok (JArr [JObj (<["topic" := JStr "Space"]> {[ "total" := JStr "ten" ]})]).
Proof. repeat split; reflexivity. Qed.

(** [get-scores] answers 400 exactly when the user name is absent or
    empty. *)
Theorem get_scores_validation (username : option string) (d : disk) :
  (username = None \/ username = Some "" ->
     get_scores username d = error_json 400 "Username is required.") /\
  (status (get_scores username d) = 400 <-> username = None \/ username = Some "").
Proof.
  destruct username as [[|c u]|]; (split; [|split]); try reflexivity; cbn;
    try discriminate; intuition (discriminate || congruence || auto).
Qed.

(** A user name that [Object.prototype] does not define and that has no
    entry in the file has the empty history. *)
Theorem get_scores_no_history (u : string) (d : disk) :
  u <> "" -> u ∉ Object_prototype -> readDb d !! u = None ->
  get_scores (Some u) d = ok (JArr []).
Proof.
  intros Hu Hp Hd. destruct u as [|c u]; [congruence|].
  unfold get_scores. rewrite (get_ordinary _ _ Hp Hd). reflexivity.
Qed.

Lemma get_scores_no_history_witness :
  get_scores (Some "alice") no_file = ok (JArr []).
Proof.
  apply (get_scores_no_history "alice" no_file);
    [discriminate | exact ordinary_name_alice | reflexivity].
Defined.

(** For a user name that [Object.prototype] does not define, on a disk
    that takes the write and whose entry for the name is absent, falsy or
    an array: [save-score] answers 201 whatever the score, total and
    timestamp are, and [get-scores] then returns the history there was
    followed by the attempt. *)
Theorem save_score_then_get_scores (req : score_request) (u : string) (d : disk) :
  username req = Some u -> u <> "" -> u ∉ Object_prototype ->
  truthy_opt (topic req) = true ->
  accepts_writes d = true ->
  (forall v, readDb d !! u = Some v -> truthy v = true -> exists xs, v = JArr xs) ->
  exists old,
    get_scores (Some u) d = ok (JArr old) /\
    status (save_score req d).1 = 201 /\
    get_scores (Some u) (save_score req d).2 = ok (JArr (old ++ [scoreData req])).
Proof.
  intros Hu Hne Hproto Htopic Hw Hwf.
  unfold save_score. rewrite Hu.
  destruct u as [|c u]; [congruence|]. set (name := String c u) in *.
  rewrite Htopic. cbn [negb].
  (* the history there was, by what the file holds under the name *)
  assert (Hold : exists old,
             (if member_truthy (get (readDb d) name) then get (readDb d) name
              else Own (JArr [])) = Own (JArr old) /\
             get (if negb (member_truthy (get (readDb d) name))
                  then <[name := JArr []]> (readDb d) else readDb d) name
             = Own (JArr old)).
  { destruct (readDb d !! name) as [v|] eqn:E.
    - rewrite (get_own _ _ _ E). cbn [member_truthy]. destruct (truthy v) eqn:T.
      + destruct (Hwf v eq_refl T) as [xs ->]. exists xs. cbn [negb].
        rewrite (get_own _ _ _ E). split; reflexivity.
      + exists []. cbn [negb]. split; [reflexivity|].
        apply get_own, lookup_insert_eq.
    - rewrite (get_ordinary _ _ Hproto E). exists []. cbn [member_truthy negb].
      split; [reflexivity|]. apply get_own, lookup_insert_eq. }
  destruct Hold as (old & Hbefore & Hafter). exists old.
  rewrite Hafter. cbn [push fst snd status].
  split; [unfold get_scores; fold name; rewrite Hbefore; reflexivity|].
  split; [reflexivity|].
  unfold get_scores. fold name. rewrite writeDb_stores by assumption.
  rewrite get_own with (v := JArr (old ++ [scoreData req])) by apply lookup_insert_eq.
  reflexivity.
Qed.

Lemma save_score_then_get_scores_witness :
  get_scores (Some "alice") (save_score (attempt "alice") no_file).2
  = ok (JArr [scoreData (attempt "alice")]).
Proof.
  destruct (save_score_then_get_scores (attempt "alice") "alice" no_file)
    as (old & Hold & _ & Hnew);
    [reflexivity | discriminate | exact ordinary_name_alice | reflexivity | reflexivity
    | intros v Hv; discriminate Hv |].
  injection Hold as <-. exact Hnew.
Defined.

End Ledger.

(** ** The gateway: [generate-quiz] *)

Section Gateway.
Import Server.

(** C6: when the key is missing, empty or still holds the placeholder
    [paste_your], [generate-quiz] answers 500 with the configuration
    message, and no request was sent to the provider: the check comes
    before the call, whatever the provider and the topic. *)
Theorem generate_quiz_checks_key_before_calling (apiKey : option string)
    (gemini : gemini_request -> gemini_reply) (topic : option string) :
  apiKey = None \/ apiKey = Some "" \/
  (exists key, apiKey = Some key /\ includes "paste_your" key = true) ->
  (generate_quiz apiKey gemini topic).1
    = error_json 500 "Server Error: API Key is missing or invalid in .env file." /\
  (generate_quiz apiKey gemini topic).2 = [].
Proof.
  intros H.
  assert (R : key_rejected apiKey = true).
  { destruct H as [->|[->|(key & -> & H)]]; try reflexivity.
    destruct key; [reflexivity | exact H]. }
  unfold generate_quiz. rewrite R. split; reflexivity.
Qed.

Lemma generate_quiz_checks_key_before_calling_witness :
  (generate_quiz (Some "paste_your_api_key_here") silent (Some "Space")).2 = [].
Proof.
  apply (generate_quiz_checks_key_before_calling (Some "paste_your_api_key_here") silent
           (Some "Space")).
  right; right. exists "paste_your_api_key_here". split; reflexivity.
Defined.

(** With a key that passes the check the provider is called once, and
    what it returns is forwarded as it is, or becomes the one error. *)
Lemma generate_quiz_calls_once (apiKey : option string)
    (gemini : gemini_request -> gemini_reply) (topic : option string) :
  key_rejected apiKey = false ->
  (generate_quiz apiKey gemini topic).2 = [quiz_request apiKey topic] /\
  (generate_quiz apiKey gemini topic).1
    = match gemini (quiz_request apiKey topic) with
      | Parsed quizJson => ok quizJson
      | _ => error_json 500 "Failed to generate quiz from AI."
      end.
Proof.
  intros R. unfold generate_quiz. rewrite R. cbn [fst snd].
  split; [reflexivity|]. destruct (gemini _); reflexivity.
Qed.

End Gateway.

(** ** The session: submitting and selecting *)

Section Session.
Import App.

Lemma agrees_spec (q : json) (a : Z) :
  agrees q a = true <-> correctIndex q = Some (JNum a).
Proof.
  unfold agrees. destruct (correctIndex q) as [[| | c | | |]|]; split; try discriminate.
  - intros H. apply Z.eqb_eq in H. congruence.
  - intros [= ->]. apply Z.eqb_refl.
Qed.

Lemma at_slot_returns (o : json) (a : slot) :
  o <> JNull -> exists v, at_slot (Some o) a = Return v.
Proof.
  intros H. destruct o; try (eexists; reflexivity). congruence.
Qed.

Lemma answerable_sample (text : string) (c : Z) : answerable (sample_question text c).
Proof.
  eexists _, _. split; [reflexivity|]. split; [reflexivity | discriminate].
Qed.

(** One call of the callback, on a question that can be marked and a slot
    that holds a number. *)
Lemma mark_chosen (answers : list slot) (i : nat) (q : json) (a sc : Z) :
  answers !! i = Some (Chosen a) -> answerable q ->
  exists entry,
    mark answers i q sc = Return (entry, (sc + Z.of_nat (if agrees q a then 1 else 0))%Z) /\
    question entry = q /\ isCorrect entry = agrees q a.
Proof.
  intros Ha (props & o & -> & Ho & Hnull).
  destruct (at_slot_returns o (Chosen a) Hnull) as [v Hv].
  unfold mark. rewrite Ha. cbn [default from_option id prop mbind completion_bind].
  rewrite Ho. cbn [mbind completion_bind]. rewrite Hv.
  assert (E : strict_eq (props !! "correctIndex") (Chosen a) = agrees (JObj props) a).
  { unfold agrees, correctIndex. destruct (props !! "correctIndex") as [[| | | | |]|]; reflexivity. }
  rewrite E.
  exists {| question := JObj props; userAnswer := v; isCorrect := agrees (JObj props) a |}.
  split; [|split; reflexivity].
  destruct (agrees (JObj props) a); cbn; do 2 f_equal; lia.
Qed.

(** The whole [map], from index [i] on: the counter grows by the number
    of agreeing answers, and the entries follow the questions. *)
Lemma map_mark_chosen (answers : list slot) (qs : list json) :
  forall (ans : list Z) (i : nat) (sc : Z),
    drop i answers = Chosen <$> ans -> length ans = length qs ->
    Forall answerable qs ->
    exists entries,
      map_mark answers i qs sc = Return (entries, (sc + Z.of_nat (matches qs ans))%Z) /\
      Forall2 (fun entry qa => question entry = qa.1 /\ isCorrect entry = agrees qa.1 qa.2)
        entries (zip qs ans).
Proof.
  induction qs as [|q qs IH]; intros ans i sc Hdrop Hlen Hq.
  - exists []. destruct ans; [|discriminate]. cbn. split; [|constructor].
    do 2 f_equal. lia.
  - destruct ans as [|a ans]; [discriminate|].
    apply Forall_cons in Hq as [Hq Hqs].
    assert (Hi : answers !! i = Some (Chosen a)).
    { rewrite <- (Nat.add_0_r i), <- lookup_drop, Hdrop. reflexivity. }
    assert (Hrest : drop (S i) answers = Chosen <$> ans).
    { rewrite <- Nat.add_1_r, <- drop_drop, Hdrop. reflexivity. }
    destruct (mark_chosen answers i q a sc Hi Hq) as (entry & Hm & Hqe & Hce).
    destruct (IH ans (S i) (sc + Z.of_nat (if agrees q a then 1 else 0))%Z Hrest
                ltac:(cbn in Hlen; lia) Hqs) as (entries & Hmm & Hall).
    exists (entry :: entries). split.
    + cbn [map_mark]. rewrite Hm. cbn [mbind completion_bind]. rewrite Hmm.
      cbn [mbind completion_bind matches]. do 2 f_equal. lia.
    + cbn [zip zip_with]. constructor; [split; assumption | assumption].
Qed.

Lemma existsb_is_null_chosen (ans : list Z) :
  existsb is_null (Chosen <$> ans) = false.
Proof. induction ans; [reflexivity | assumption]. Qed.

Lemma existsb_is_null (answers : list slot) :
  Null ∈ answers -> existsb is_null answers = true.
Proof.
  intros H. apply existsb_exists. exists Null. split; [|reflexivity].
  apply list_elem_of_In. assumption.
Qed.

(** C3: in a session that shows a quiz, with a [null] among the answers,
    [handleSubmitQuiz] only sets the message 'Please answer all
    questions.': the session still shows the quiz, no results are
    attached, and the backend, its disk included, is as it was. *)
Theorem submit_with_unset_slot_is_refused (now : string) (b : backend) (s : state)
    (answers : list slot) :
  phase_of s = Active -> userAnswers s = Some answers -> Null ∈ answers ->
  handleSubmitQuiz now b s = (setError "Please answer all questions." s, b) /\
  phase_of (handleSubmitQuiz now b s).1 = Active /\
  results (handleSubmitQuiz now b s).1 = None /\
  storage (handleSubmitQuiz now b s).2 = storage b.
Proof.
  intros Hp Ha Hn.
  assert (E : handleSubmitQuiz now b s = (setError "Please answer all questions." s, b)).
  { unfold handleSubmitQuiz. rewrite Ha, (existsb_is_null _ Hn). reflexivity. }
  rewrite E. cbn [fst snd]. repeat split; try assumption.
  unfold phase_of in Hp. cbn. destruct (results s); [discriminate | reflexivity].
Qed.

Lemma submit_with_unset_slot_is_refused_witness :
  handleSubmitQuiz "2025-01-01T00:00:00.000Z" (replying JNull)
    (handleAnswerSelect 0 0 two_unanswered)
  = (setError "Please answer all questions." (handleAnswerSelect 0 0 two_unanswered),
     replying JNull).
Proof.
  apply (submit_with_unset_slot_is_refused _ _ _ [Chosen 0; Null]);
    [reflexivity | reflexivity |].
  apply list_elem_of_further, list_elem_of_here.
Defined.

(** C1: for a quiz of questions that can be marked and answers that are
    all numbers, one per question, [handleSubmitQuiz] attaches results
    whose score is the number of indices at which the answer is the
    question's [correctIndex], whose total is the number of questions,
    and whose feedback holds, at every index, the question with the
    verdict: correct exactly when the answer is its [correctIndex]. *)
Theorem submit_scores_by_correctIndex (now : string) (b : backend) (s : state)
    (qs : list json) (ans : list Z) :
  quizData s = Some (JArr qs) ->
  userAnswers s = Some (Chosen <$> ans) ->
  length ans = length qs ->
  Forall answerable qs ->
  exists r,
    results (handleSubmitQuiz now b s).1 = Some r /\
    score r = Z.of_nat (matches qs ans) /\
    total r = length qs /\
    length (feedback r) = length qs /\
    forall i q a, qs !! i = Some q -> ans !! i = Some a ->
      exists entry, feedback r !! i = Some entry /\ question entry = q /\
        (isCorrect entry = true <-> correctIndex q = Some (JNum a)).
Proof.
  intros Hq Ha Hlen Hall.
  destruct (map_mark_chosen (Chosen <$> ans) qs ans 0 0%Z eq_refl Hlen Hall)
    as (entries & Hm & Hrel).
  unfold handleSubmitQuiz. rewrite Ha, existsb_is_null_chosen.
  cbn [quizData setIsLoading]. rewrite Hq. cbn [elements mbind completion_bind].
  rewrite Hm. cbn [mbind completion_bind mret completion_ret].
  destruct (Server.save_score _ _) as [res d]. cbn [fst results setIsLoading setResults].
  eexists. split; [reflexivity|]. cbn [score total feedback].
  split; [lia|]. split; [reflexivity|].
  assert (Hlz : length (zip qs ans) = length qs).
  { rewrite length_zip_with. lia. }
  split.
  - rewrite (Forall2_length _ _ _ Hrel). exact Hlz.
  - intros i q a Hi Hai.
    assert (Hz : zip qs ans !! i = Some (q, a)).
    { apply lookup_zip_with_Some. exists q, a. auto. }
    destruct (Forall2_lookup_r _ _ _ _ _ Hrel Hz) as (entry & He & Hqe & Hce).
    exists entry. split; [exact He|]. split; [exact Hqe|].
    cbn in Hce. rewrite Hce. apply agrees_spec.
Qed.

Lemma submit_scores_by_correctIndex_witness :
  exists r,
    results (handleSubmitQuiz "2025-01-01T00:00:00.000Z" (replying JNull)
               (handleAnswerSelect 1 1 (handleAnswerSelect 0 0 two_unanswered))).1
    = Some r /\ score r = 1%Z /\ total r = 2.
Proof.
  destruct (submit_scores_by_correctIndex "2025-01-01T00:00:00.000Z" (replying JNull)
              (handleAnswerSelect 1 1 (handleAnswerSelect 0 0 two_unanswered))
              [sample_question "first" 0; sample_question "second" 3] [0%Z; 1%Z])
    as (r & Hr & Hs & Ht & _);
    [reflexivity | reflexivity | reflexivity
    | repeat constructor; apply answerable_sample |].
  exists r. split; [exact Hr|]. split; [exact Hs | exact Ht].
Defined.

(** C7, as stated, fails: the session shows a quiz of two questions, and
    selecting an option for question index 2, or 4, changes the answer
    vector: it grows, with [undefined] in the slots in between. *)
Example select_past_the_end_grows_the_vector :
  phase_of two_unanswered = Active /\
  userAnswers two_unanswered = Some [Null; Null] /\
  userAnswers (handleAnswerSelect 2 1 two_unanswered) = Some [Null; Null; Chosen 1] /\
  userAnswers (handleAnswerSelect 4 1 two_unanswered)
    = Some [Null; Null; Undef; Undef; Chosen 1].
Proof. repeat split; reflexivity. Qed.

(** C7, amended: [handleAnswerSelect] checks no bounds, and changes the
    answer vector only.  Within the vector, the slot at the question
    index is overwritten with the option and every other slot is kept.
    At or past the end and below [2^32 - 1] (so still an array index),
    the vector is kept and extended up to the question index: the new
    last slot holds the option, the slots in between are [undefined].
    A question index that is negative, or at or past the end and
    [2^32 - 1] or more, is no array index: no slot changes. *)
Theorem select_answer_writes_without_bounds_check (questionIndex optionIndex : Z)
    (s : state) (answers : list slot) :
  userAnswers s = Some answers ->
  exists answers',
    handleAnswerSelect questionIndex optionIndex s = setUserAnswers (Some answers') s /\
    ((0 <= questionIndex < Z.of_nat (length answers))%Z ->
       length answers' = length answers /\
       answers' !! Z.to_nat questionIndex = Some (Chosen optionIndex) /\
       forall j, j <> Z.to_nat questionIndex -> answers' !! j = answers !! j) /\
    ((Z.of_nat (length answers) <= questionIndex < 2 ^ 32 - 1)%Z ->
       answers' = answers
                  ++ replicate (Z.to_nat questionIndex - length answers) Undef
                  ++ [Chosen optionIndex]) /\
    ((questionIndex < 0)%Z -> answers' = answers) /\
    ((Z.of_nat (length answers) <= questionIndex)%Z ->
     (2 ^ 32 - 1 <= questionIndex)%Z -> answers' = answers).
Proof.
  intros Ha. exists (assign answers questionIndex (Chosen optionIndex)).
  split; [unfold handleAnswerSelect; rewrite Ha; reflexivity|].
  unfold assign. split; [|split; [|split]].
  - intros [Hlo Hhi].
    rewrite (proj2 (Z.ltb_ge _ _) Hlo).
    rewrite (proj2 (Nat.ltb_lt (Z.to_nat questionIndex) (length answers))) by lia.
    split; [apply length_insert|]. split.
    + apply list_lookup_insert_eq. lia.
    + intros j Hj. apply list_lookup_insert_ne. congruence.
  - intros [Hlo Hhi].
    rewrite (proj2 (Z.ltb_ge questionIndex 0)) by lia.
    rewrite (proj2 (Nat.ltb_ge (Z.to_nat questionIndex) (length answers))) by lia.
    rewrite (proj2 (Z.ltb_lt _ _) Hhi). reflexivity.
  - intros Hneg. rewrite (proj2 (Z.ltb_lt _ _) Hneg). reflexivity.
  - intros Hend Hmax.
    rewrite (proj2 (Z.ltb_ge questionIndex 0)) by lia.
    rewrite (proj2 (Nat.ltb_ge (Z.to_nat questionIndex) (length answers))) by lia.
    rewrite (proj2 (Z.ltb_ge _ _) Hmax). reflexivity.
Qed.

Lemma select_answer_writes_without_bounds_check_witness :
  exists answers',
    handleAnswerSelect 1 2 two_unanswered = setUserAnswers (Some answers') two_unanswered /\
    answers' !! 1 = Some (Chosen 2) /\ answers' !! 0 = Some Null.
Proof.
  destruct (select_answer_writes_without_bounds_check 1 2 two_unanswered [Null; Null] eq_refl)
    as (answers' & E & Hin & _).
  destruct Hin as (_ & H1 & Hother); [cbn; lia|].
  exists answers'. split; [exact E|]. split; [exact H1|].
  rewrite (Hother 0); [reflexivity | discriminate].
Defined.

End Session.

(** ** Generation, end to end: [handleGenerateQuiz] over [generate-quiz] *)

Section Generation.
Import App.

Variable conv : json -> completion bool.

Lemma accept_array (qs : list json) (s : state) :
  qs <> [] -> (Z.of_nat (length qs) < 2 ^ 32)%Z ->
  accept conv (JArr qs) s
  = (Return tt, setUserAnswers (Some (replicate (length qs) Null))
                  (setQuizData (Some (JArr qs)) s)).
Proof.
  intros Hne Hlen.
  assert (Hpos : (0 <? Z.of_nat (length qs))%Z = true).
  { apply Z.ltb_lt. destruct qs; [congruence | cbn; lia]. }
  unfold accept, mbind, action_bind, lift, update. cbn [truthy length_of gt_zero].
  rewrite Hpos. cbn [new_Array_fill].
  rewrite (proj2 (Z.leb_le 0 _)) by lia.
  rewrite (proj2 (Z.ltb_lt _ _) Hlen). cbn [andb]. rewrite Nat2Z.id. reflexivity.
Qed.

Lemma accept_empty_array (s : state) :
  accept conv (JArr []) s = (Return tt, setError "Failed to generate quiz." s).
Proof. reflexivity. Qed.

Lemma accept_object_without_length (props : gmap string json) (s : state) :
  props !! "length" = None ->
  accept conv (JObj props) s = (Return tt, setError "Failed to generate quiz." s).
Proof.
  intros H. unfold accept, mbind, action_bind, lift, update.
  cbn [truthy length_of]. rewrite H. reflexivity.
Qed.

(** What the component takes for the questions, when the reply holds a
    list of them. *)
Lemma receive_question_list (data : json) (qs : list json) (s : state) :
  question_list data = Some qs -> receive conv data s = accept conv (JArr qs) s.
Proof.
  intros Hq. unfold receive, mbind, action_bind, lift.
  destruct data as [| | | |xs|props]; try discriminate.
  - injection Hq as ->. reflexivity.
  - cbn [question_list] in Hq. cbn [prop].
    destruct (props !! "questions") as [[| | | |xs|]|] eqn:E; try discriminate.
    injection Hq as ->. reflexivity.
Qed.

Lemma handleGenerateQuiz_parsed (b : backend) (s : state) (quizJson : json) :
  truthy (JStr (trim (topic s))) = true ->
  Server.key_rejected (GEMINI_API_KEY b) = false ->
  gemini b (Server.quiz_request (GEMINI_API_KEY b) (Some (topic s))) = Server.Parsed quizJson ->
  handleGenerateQuiz conv b s
  = setIsLoading false
      match receive conv quizJson (requesting s) with
      | (Return _, s') => s'
      | (Throw _, s') => setError "Error connecting to AI service." s'
      end.
Proof.
  intros Ht Hr Hg. unfold handleGenerateQuiz. rewrite Ht. cbn [negb].
  unfold Server.generate_quiz. rewrite Hr.
  cbn [topic setResults setQuizData setError setIsLoading]. rewrite Hg.
  unfold try_catch_finally, mbind, action_bind, lift. cbn.
  fold (requesting s). destruct (receive conv quizJson (requesting s)) as [[[]|e] s']; reflexivity.
Qed.

Lemma handleGenerateQuiz_failed (b : backend) (s : state) :
  truthy (JStr (trim (topic s))) = true ->
  Server.key_rejected (GEMINI_API_KEY b) = false ->
  (forall quizJson,
     gemini b (Server.quiz_request (GEMINI_API_KEY b) (Some (topic s)))
     <> Server.Parsed quizJson) ->
  handleGenerateQuiz conv b s
  = setIsLoading false (setError "Error connecting to AI service." (requesting s)).
Proof.
  intros Ht Hr Hg. unfold handleGenerateQuiz. rewrite Ht. cbn [negb].
  unfold Server.generate_quiz. rewrite Hr.
  cbn [topic setResults setQuizData setError setIsLoading].
  destruct (gemini b _) as [| | |quizJson] eqn:E; try reflexivity.
  destruct (Hg quizJson). reflexivity.
Qed.

(** C2, amended: with a topic that is not blank and a key that passes the
    check, the generation call fails, with the answer 500 'Failed to
    generate quiz from AI.' and the session left without a quiz, when the
    request to the provider fails or its reply yields no text that
    parses.  A reply that parses is forwarded as it is.  The component
    then takes its list of questions (the reply itself when it is an
    array, its [questions] when that is one) for the quiz whenever the
    list is not empty, whatever the number of questions, the number of
    options and the [correctIndex] of each, and sets one [null] answer
    per question; it refuses the reply, with 'Failed to generate quiz.',
    when the list is empty, or when the reply is an object with neither
    [questions] nor [length]. *)
Theorem generation_forwards_and_accepts_unvalidated (b : backend) (s : state) :
  truthy (JStr (trim (topic s))) = true ->
  Server.key_rejected (GEMINI_API_KEY b) = false ->
  let reply := gemini b (Server.quiz_request (GEMINI_API_KEY b) (Some (topic s))) in
  let res := (Server.generate_quiz (GEMINI_API_KEY b) (gemini b) (Some (topic s))).1 in
  let s' := handleGenerateQuiz conv b s in
  ((forall quizJson, reply <> Server.Parsed quizJson) ->
     res = Server.error_json 500 "Failed to generate quiz from AI." /\
     quizData s' = None /\ error s' = "Error connecting to AI service.") /\
  (forall quizJson, reply = Server.Parsed quizJson ->
     res = ok quizJson /\
     (forall qs, question_list quizJson = Some qs ->
        qs <> [] -> (Z.of_nat (length qs) < 2 ^ 32)%Z ->
        quizData s' = Some (JArr qs) /\
        userAnswers s' = Some (replicate (length qs) Null) /\
        error s' = "" /\ phase_of s' = Active) /\
     (question_list quizJson = Some [] \/
      (exists props, quizJson = JObj props /\
         props !! "questions" = None /\ props !! "length" = None) ->
      quizData s' = None /\ error s' = "Failed to generate quiz.")).
Proof.
  intros Ht Hr reply res s'. subst reply res s'.
  destruct (generate_quiz_calls_once _ (gemini b) (Some (topic s)) Hr) as [_ Hres].
  split.
  - intros Hg. rewrite Hres, (handleGenerateQuiz_failed b s Ht Hr Hg).
    split; [|split; reflexivity].
    destruct (gemini b _) as [| | |quizJson] eqn:E; try reflexivity.
    destruct (Hg quizJson). reflexivity.
  - intros quizJson Hg.
    rewrite Hres, (handleGenerateQuiz_parsed b s quizJson Ht Hr Hg), Hg.
    split; [reflexivity|]. split.
    + intros qs Hq Hne Hlen.
      rewrite (receive_question_list _ _ _ Hq), (accept_array _ _ Hne Hlen).
      repeat split.
    + intros [Hq|(props & -> & Hq & Hl)].
      * rewrite (receive_question_list _ _ _ Hq), accept_empty_array. split; reflexivity.
      * unfold receive, mbind, action_bind, lift. cbn [prop]. rewrite Hq. cbn [or_else].
        rewrite (accept_object_without_length _ _ Hl). split; reflexivity.
Qed.

End Generation.

Section GenerationExamples.
Import App.

(** C2, as stated, fails: the provider returns one question, with two
    options and the [correctIndex] 7.  The backend forwards it with
    status 200, and the component takes it for the quiz, with no error;
    so it does when the reply is the bare array, with no [questions]. *)
Example malformed_quiz_is_accepted :
  (Server.generate_quiz (Some "AIza-key")
     (fun _ => Server.Parsed (JObj {[ "questions" := JArr [bad_question] ]}))
     (Some "Space")).1
    = ok (JObj {[ "questions" := JArr [bad_question] ]}) /\
  quizData (handleGenerateQuiz no_conversion
              (replying (JObj {[ "questions" := JArr [bad_question] ]})) idle)
    = Some (JArr [bad_question]) /\
  error (handleGenerateQuiz no_conversion
           (replying (JObj {[ "questions" := JArr [bad_question] ]})) idle) = "" /\
  quizData (handleGenerateQuiz no_conversion (replying (JArr [bad_question])) idle)
    = Some (JArr [bad_question]).
Proof. repeat split; reflexivity. Qed.

Lemma generation_forwards_and_accepts_unvalidated_witness :
  quizData (handleGenerateQuiz no_conversion
              (replying (JObj {[ "questions" := JArr [sample_question "first" 0] ]})) idle)
    = Some (JArr [sample_question "first" 0]) /\
  userAnswers (handleGenerateQuiz no_conversion
                 (replying (JObj {[ "questions" := JArr [sample_question "first" 0] ]})) idle)
    = Some [Null].
Proof.
  destruct (generation_forwards_and_accepts_unvalidated no_conversion
              (replying (JObj {[ "questions" := JArr [sample_question "first" 0] ]})) idle
              eq_refl eq_refl) as [_ H].
  destruct (H _ eq_refl) as (_ & Hacc & _).
  destruct (Hacc [sample_question "first" 0] eq_refl) as (Hq & Ha & _);
    [discriminate | cbn; lia |].
  split; [exact Hq | exact Ha].
Defined.

End GenerationExamples.

(** ** A whole session *)

Section Scenario.
Import App.

(** The scenario of the specification: the topic is Space, the provider
    returns ten questions; the session then shows the quiz with ten
    [null] answers.  The user answers all ten, seven of them right:
    submitting attaches the score 7 of 10 with ten feedback entries, and
    the history of the user then ends with that attempt. *)
Example space_quiz_scored_seven :
  let b := replying (JObj {[ "questions" := JArr ten_questions ]}) in
  let active := handleGenerateQuiz no_conversion b idle in
  let submitted := handleSubmitQuiz "2025-01-01T00:00:00.000Z" b
                     (select_from 0 ten_answers active) in
  phase_of active = Active /\
  userAnswers active = Some (replicate 10 Null) /\
  phase_of submitted.1 = Scored /\
  (score <$> results submitted.1) = Some 7%Z /\
  (total <$> results submitted.1) = Some 10 /\
  (length ∘ feedback <$> results submitted.1) = Some 10 /\
  Server.get_scores (Some "alice") (storage submitted.2) = ok (JArr [Server.scoreData (attempt "alice")]).
Proof. repeat split; vm_compute; reflexivity. Qed.

End Scenario.

(** ** More on the ledger *)

Section LedgerFurther.
Import Server.

(** [save-score] on a request that passes the check of line 128. *)
Lemma save_score_checked (req : score_request) (u : string) (d : disk) :
  username req = Some u -> u <> "" -> truthy_opt (topic req) = true ->
  save_score req d
  = match history (readDb d) u with
    | Some old => (created, writeDb (<[u := JArr (old ++ [scoreData req])]> (readDb d)) d)
    | None => (uncaught, d)
    end.
Proof.
  intros Hu Hne Ht. unfold save_score. rewrite Hu.
  destruct u as [|c u]; [congruence|]. set (name := String c u) in *.
  rewrite Ht. cbn [negb]. unfold history.
  destruct (get (readDb d) name) as [|v|k] eqn:G; cbn [member_truthy negb].
  - rewrite (get_own _ _ (JArr [])) by apply lookup_insert_eq. cbn [push app].
    rewrite insert_insert_eq. reflexivity.
  - destruct v as [|[]|n| s |xs|props]; cbn [truthy negb];
      try (rewrite (get_own _ _ (JArr [])) by apply lookup_insert_eq; cbn [push app];
           rewrite insert_insert_eq; reflexivity);
      try (rewrite G; reflexivity).
    + destruct (n =? 0)%Z; cbn [negb].
      * rewrite (get_own _ _ (JArr [])) by apply lookup_insert_eq. cbn [push app].
        rewrite insert_insert_eq. reflexivity.
      * rewrite G. reflexivity.
    + destruct (String.eqb s ""); cbn [negb].
      * rewrite (get_own _ _ (JArr [])) by apply lookup_insert_eq. cbn [push app].
        rewrite insert_insert_eq. reflexivity.
      * rewrite G. reflexivity.
  - rewrite G. reflexivity.
Qed.

(** [save-score] on a request that fails it. *)
Lemma save_score_unchecked (req : score_request) (d : disk) :
  username req = None \/ username req = Some "" \/ truthy_opt (topic req) = false ->
  save_score req d = (error_json 400 "Username and score data are required.", d).
Proof.
  intros H. unfold save_score.
  destruct (username req) as [[|c u]|]; try reflexivity.
  destruct H as [H|[H|H]]; try discriminate. rewrite H. reflexivity.
Qed.

Lemma checked_or_not (req : score_request) :
  (username req = None \/ username req = Some "" \/ truthy_opt (topic req) = false) \/
  (exists u, username req = Some u /\ u <> "" /\ truthy_opt (topic req) = true).
Proof.
  destruct (username req) as [[|c u]|]; auto.
  destruct (truthy_opt (topic req)); auto.
  right. exists (String c u). auto.
Qed.

Lemma history_array (db : gmap string json) (u : string) (xs : list json) :
  db !! u = Some (JArr xs) -> history db u = Some xs.
Proof. intros H. unfold history. rewrite (get_own _ _ _ H). reflexivity. Qed.

(** The check of line 128: the answer is 400 exactly when the user name
    is absent or empty or the topic is falsy, and then nothing is read or
    written. *)
Theorem save_score_validation (req : score_request) (d : disk) :
  (status (save_score req d).1 = 400 <->
   username req = None \/ username req = Some "" \/ truthy_opt (topic req) = false) /\
  (status (save_score req d).1 = 400 ->
   save_score req d = (error_json 400 "Username and score data are required.", d)).
Proof.
  destruct (checked_or_not req) as [H|(u & Hu & Hne & Ht)].
  - rewrite (save_score_unchecked req d H). split; [split|]; auto.
  - rewrite (save_score_checked req u d Hu Hne Ht).
    assert (S : status (match history (readDb d) u with
                        | Some old =>
                            (created,
                             writeDb (<[u := JArr (old ++ [scoreData req])]> (readDb d)) d)
                        | None => (uncaught, d)
                        end).1 <> 400).
    { destruct (history (readDb d) u); cbn; discriminate. }
    split; [split|]; intros H; try contradiction.
    destruct H as [H|[H|H]]; congruence.
Qed.

(** A write that fails is swallowed: on a disk that refuses writes no
    request changes the file.  And a request that passes the check is
    still answered 201, when the user has a history to append to
    ([history (readDb d) u = Some old]): the ledger read holds under the
    user's name an array, or a falsy value, or holds nothing under it and
    the name is no member name of [Object.prototype]. *)
Theorem save_score_write_refused (req : score_request) (d : disk) :
  accepts_writes d = false ->
  (save_score req d).2 = d /\
  forall u old, username req = Some u -> u <> "" -> truthy_opt (topic req) = true ->
    history (readDb d) u = Some old ->
    (save_score req d).1 = created.
Proof.
  intros W. split.
  - destruct (checked_or_not req) as [H|(u & Hu & Hne & Ht)].
    + rewrite (save_score_unchecked req d H). reflexivity.
    + rewrite (save_score_checked req u d Hu Hne Ht).
      destruct (history (readDb d) u); [|reflexivity].
      cbn [snd]. apply writeDb_refused, W.
  - intros u old Hu Hne Ht Hh.
    rewrite (save_score_checked req u d Hu Hne Ht), Hh. reflexivity.
Qed.

Lemma save_score_write_refused_witness :
  save_score (attempt "alice") {| db_json := Absent; accepts_writes := false |}
  = (created, {| db_json := Absent; accepts_writes := false |}).
Proof.
  destruct (save_score_write_refused (attempt "alice")
              {| db_json := Absent; accepts_writes := false |} eq_refl) as [Hd Hs].
  apply injective_projections; cbn [fst snd].
  - apply (Hs "alice" []); [reflexivity | discriminate | reflexivity | reflexivity].
  - exact Hd.
Defined.

(** A stored value that is truthy and no array (a file edited by hand)
    makes every request for that name fail: [push] is missing, Express
    answers 500, the file is not written; [get-scores] hands the value
    out as it is. *)
Theorem save_score_on_foreign_entry (req : score_request) (u : string) (v : json)
    (d : disk) :
  username req = Some u -> u <> "" -> truthy_opt (topic req) = true ->
  readDb d !! u = Some v -> truthy v = true -> (forall xs, v <> JArr xs) ->
  save_score req d = (uncaught, d) /\ get_scores (Some u) d = ok v.
Proof.
  intros Hu Hne Ht Hv Htv Harr. split.
  - rewrite (save_score_checked req u d Hu Hne Ht). unfold history.
    rewrite (get_own _ _ _ Hv).
    destruct v; try discriminate Htv; cbv beta iota;
      try (rewrite Htv; reflexivity); try reflexivity.
    destruct (Harr xs). reflexivity.
  - destruct u as [|c u]; [congruence|].
    unfold get_scores. rewrite (get_own _ _ _ Hv). cbn [member_truthy].
    rewrite Htv. reflexivity.
Qed.

Lemma save_score_on_foreign_entry_witness :
  save_score (attempt "alice")
    {| db_json := Holding (Doc {[ "alice" := JStr "gone" ]}); accepts_writes := true |}
  = (uncaught,
     {| db_json := Holding (Doc {[ "alice" := JStr "gone" ]}); accepts_writes := true |}).
Proof.
  apply (save_score_on_foreign_entry (attempt "alice") "alice" (JStr "gone"));
    [reflexivity | discriminate | reflexivity | reflexivity | reflexivity | discriminate].
Defined.

(** Append only: an array stored under any name is, after any request,
    the same array or that array with the request's attempt at its end. *)
Theorem save_score_append_only (req : score_request) (d : disk) (k : string)
    (xs : list json) :
  readDb d !! k = Some (JArr xs) ->
  readDb (save_score req d).2 !! k = Some (JArr xs) \/
  readDb (save_score req d).2 !! k = Some (JArr (xs ++ [scoreData req])).
Proof.
  intros Hk.
  destruct (checked_or_not req) as [H|(u & Hu & Hne & Ht)].
  - rewrite (save_score_unchecked req d H). left. exact Hk.
  - destruct (decide (u = k)) as [->|Hneq].
    + rewrite (save_score_checked req k d Hu Hne Ht), (history_array _ _ _ Hk).
      cbn [snd]. destruct (accepts_writes d) eqn:W.
      * right. rewrite writeDb_stores by assumption. apply lookup_insert_eq.
      * left. rewrite writeDb_refused by assumption. exact Hk.
    + left. rewrite save_score_frame; [exact Hk | congruence].
Qed.

Lemma save_score_append_only_witness :
  readDb (save_score (attempt "alice")
            {| db_json := Holding (Doc {[ "alice" := JArr [JNull] ]});
               accepts_writes := true |}).2 !! "alice" = Some (JArr [JNull]) \/
  readDb (save_score (attempt "alice")
            {| db_json := Holding (Doc {[ "alice" := JArr [JNull] ]});
               accepts_writes := true |}).2 !! "alice"
  = Some (JArr ([JNull] ++ [scoreData (attempt "alice")])).
Proof.
  apply (save_score_append_only (attempt "alice")
           {| db_json := Holding (Doc {[ "alice" := JArr [JNull] ]});
              accepts_writes := true |} "alice" [JNull]).
  reflexivity.
Defined.

End LedgerFurther.

Section LedgerSequences.
Import Server.

Lemma writeDb_keeps_flag (db : gmap string json) (d : disk) :
  accepts_writes (writeDb db d) = accepts_writes d.
Proof.
  unfold writeDb, writeFileSync. destruct (accepts_writes d) eqn:W; [reflexivity | exact W].
Qed.

Lemma well_formed_insert (db : gmap string json) (u : string) (xs : list json) :
  well_formed db -> well_formed (<[u := JArr xs]> db).
Proof.
  intros H k v. destruct (decide (u = k)) as [->|Hne].
  - rewrite lookup_insert_eq. intros [= <-]. eauto.
  - rewrite lookup_insert_ne by assumption. apply H.
Qed.

Lemma save_score_keeps_well_formed (req : score_request) (d : disk) :
  well_formed (readDb d) -> well_formed (readDb (save_score req d).2).
Proof.
  intros H.
  destruct (checked_or_not req) as [Hc|(u & Hu & Hne & Ht)].
  - rewrite (save_score_unchecked req d Hc). exact H.
  - rewrite (save_score_checked req u d Hu Hne Ht).
    destruct (history (readDb d) u) as [old|]; [|exact H].
    cbn [snd]. destruct (accepts_writes d) eqn:W.
    + rewrite writeDb_stores by assumption. apply well_formed_insert, H.
    + rewrite writeDb_refused by assumption. exact H.
Qed.

Lemma get_scores_history (u : string) (d : disk) (old : list json) :
  u <> "" -> history (readDb d) u = Some old -> get_scores (Some u) d = ok (JArr old).
Proof.
  intros Hne Hh. destruct u as [|c u]; [congruence|].
  unfold get_scores. unfold history in Hh.
  destruct (get (readDb d) (String c u)) as [|v|k]; [| |discriminate].
  - injection Hh as <-. reflexivity.
  - cbn [member_truthy].
    destruct v; cbv beta iota in Hh;
      try (destruct (truthy _) eqn:T; [discriminate|]; injection Hh as <-; reflexivity).
    injection Hh as <-. reflexivity.
Qed.

(** The file the program writes stays well formed: if every entry is an
    array, every entry is an array after any sequence of requests.  In
    particular this holds from the first run on, when there is no file. *)
Theorem ledger_stays_well_formed (reqs : list score_request) (d : disk) :
  well_formed (readDb d) -> well_formed (readDb (save_all reqs d)).
Proof.
  revert d. induction reqs as [|req reqs IH]; intros d H; [exact H|].
  cbn [save_all]. apply IH, save_score_keeps_well_formed, H.
Qed.

Lemma ledger_stays_well_formed_witness :
  well_formed (readDb (save_all [attempt "alice"; sparse_attempt "bob"; attempt "alice"]
                         no_file)).
Proof.
  apply (ledger_stays_well_formed _ no_file).
  intros k v Hk. discriminate Hk.
Defined.

(** On a well-formed file, the only requests [save-score] answers with
    500 are those that pass the check under a user name inherited from
    [Object.prototype] and not stored in the file. *)
Theorem save_score_fails_only_for_inherited_names (req : score_request) (d : disk) :
  well_formed (readDb d) ->
  (status (save_score req d).1 = 500 <->
   exists u, username req = Some u /\ truthy_opt (topic req) = true /\
     u ∈ Object_prototype /\ readDb d !! u = None).
Proof.
  intros Hwf.
  destruct (checked_or_not req) as [Hc|(u & Hu & Hne & Ht)].
  - rewrite (save_score_unchecked req d Hc). cbn. split; [discriminate|].
    intros (u & Hu & Ht & Hp & _).
    destruct Hc as [Hc|[Hc|Hc]]; try congruence.
    rewrite Hu in Hc. injection Hc as ->.
    apply (bool_decide_eq_true_2 _) in Hp. discriminate Hp.
  - rewrite (save_score_checked req u d Hu Hne Ht). unfold history, get.
    destruct (readDb d !! u) as [v|] eqn:E.
    + destruct (Hwf _ _ E) as [xs ->]. cbn. split; [discriminate|].
      intros (u' & Hu' & _ & _ & Hn). congruence.
    + destruct (bool_decide (u ∈ Object_prototype)) eqn:P.
      * cbn. split; [|reflexivity]. intros _. exists u.
        apply bool_decide_eq_true in P. auto.
      * cbn. split; [discriminate|]. intros (u' & Hu' & _ & Hp & _).
        assert (u' = u) as -> by congruence.
        apply bool_decide_eq_false in P. contradiction.
Qed.

Lemma save_score_fails_only_for_inherited_names_witness :
  status (save_score (attempt "valueOf") no_file).1 = 500.
Proof.
  apply (save_score_fails_only_for_inherited_names (attempt "valueOf") no_file).
  - intros k v Hk. discriminate Hk.
  - exists "valueOf". repeat split. apply (bool_decide_unpack _). reflexivity.
Defined.

(** Requests for one user, whose name is not empty, each with a truthy
    topic, on a disk that takes the writes, when the user has a history
    [old] to append to ([history (readDb d) u = Some old]: the ledger
    read holds under the user's name an array, [old] its items, or a
    falsy value, or holds nothing under it and the name is no member name
    of [Object.prototype], [old] empty in both cases).  [get-scores] for
    the user afterwards returns [old] followed by the attempts, in the
    order the requests came. *)
Theorem save_all_appends_in_order (reqs : list score_request) (u : string) :
  forall (d : disk) (old : list json),
    u <> "" ->
    Forall (fun req => username req = Some u /\ truthy_opt (topic req) = true) reqs ->
    accepts_writes d = true ->
    history (readDb d) u = Some old ->
    get_scores (Some u) (save_all reqs d) = ok (JArr (old ++ (scoreData <$> reqs))).
Proof.
  induction reqs as [|req reqs IH]; intros d old Hne Hall W Hh.
  - cbn [save_all fmap list_fmap]. rewrite app_nil_r. apply get_scores_history; assumption.
  - apply Forall_cons in Hall as [[Hu Ht] Hall].
    cbn [save_all]. rewrite (save_score_checked req u d Hu Hne Ht), Hh. cbn [snd].
    rewrite (IH _ (old ++ [scoreData req]) Hne Hall).
    + rewrite <- app_assoc. reflexivity.
    + rewrite writeDb_keeps_flag. exact W.
    + rewrite writeDb_stores by assumption. apply history_array, lookup_insert_eq.
Qed.

Lemma save_all_appends_in_order_witness :
  get_scores (Some "alice") (save_all [attempt "alice"; sparse_attempt "alice"] no_file)
  = ok (JArr [scoreData (attempt "alice"); scoreData (sparse_attempt "alice")]).
Proof.
  apply (save_all_appends_in_order [attempt "alice"; sparse_attempt "alice"] "alice"
           no_file []);
    [discriminate | repeat constructor | reflexivity | reflexivity].
Defined.

End LedgerSequences.

(** ** More on the gateway *)

Section GatewayFurther.
Import Server.

Lemma prefix_spec (needle haystack : string) :
  String.prefix needle haystack = true <-> exists post, haystack = needle +:+ post.
Proof.
  revert haystack. induction needle as [|c needle IH]; intros haystack.
  - split; [intros _; exists haystack; reflexivity | destruct haystack; reflexivity].
  - destruct haystack as [|c' haystack]; cbn [String.prefix].
    + split; [discriminate | intros [post H]; discriminate H].
    + destruct (Ascii.ascii_dec c c') as [->|Hne].
      * rewrite IH. split; intros [post H]; exists post.
        -- rewrite H. reflexivity.
        -- change (String c' haystack = String c' (needle +:+ post)) in H. congruence.
      * split; [discriminate|]. intros [post H].
        change (String c' haystack = String c (needle +:+ post)) in H. congruence.
Qed.

Lemma includes_spec (needle haystack : string) :
  includes needle haystack = true <->
  exists pre post, haystack = pre +:+ needle +:+ post.
Proof.
  split.
  - induction haystack as [|c rest IH]; cbn [includes]; intros H;
      apply orb_true_iff in H as [H|H].
    + apply prefix_spec in H as [post ->]. exists "", post. reflexivity.
    + discriminate.
    + apply prefix_spec in H as [post H]. exists "", post. exact H.
    + destruct (IH H) as (pre & post & ->). exists (String c pre), post. reflexivity.
  - intros (pre & post & ->). induction pre as [|c pre IH].
    + assert (P : String.prefix needle (needle +:+ post) = true)
        by (apply prefix_spec; eauto).
      change ("" +:+ needle +:+ post) with (needle +:+ post).
      destruct (needle +:+ post); cbn [includes]; rewrite P; reflexivity.
    + change (String c pre +:+ needle +:+ post) with (String c (pre +:+ needle +:+ post)).
      cbn [includes]. rewrite IH. apply orb_true_r.
Qed.

(** The key check rejects exactly the keys that are missing, empty, or
    hold the text [paste_your] anywhere. *)
Theorem key_rejected_spec (apiKey : option string) :
  key_rejected apiKey = true <->
  apiKey = None \/ apiKey = Some "" \/
  exists pre post, apiKey = Some (pre +:+ "paste_your" +:+ post).
Proof.
  destruct apiKey as [[|c key]|]; cbn [key_rejected].
  - split; auto.
  - rewrite includes_spec. split.
    + intros (pre & post & H). right; right. exists pre, post. congruence.
    + intros [H|[H|(pre & post & H)]]; try discriminate.
      exists pre, post. congruence.
  - split; auto.
Qed.

(** Every call of [generate-quiz]: the provider is asked at most once (no
    retry), and not at all exactly when the key is rejected; the answer
    is 200 or 500, and it is 200 exactly when the key passes and the
    provider's text parses, the body then being the parsed value as it
    is. *)
Theorem generate_quiz_outcomes (apiKey : option string)
    (gemini : gemini_request -> gemini_reply) (topic : option string) :
  length (generate_quiz apiKey gemini topic).2 <= 1 /\
  ((generate_quiz apiKey gemini topic).2 = [] <-> key_rejected apiKey = true) /\
  (status (generate_quiz apiKey gemini topic).1 = 200 \/
   status (generate_quiz apiKey gemini topic).1 = 500) /\
  (status (generate_quiz apiKey gemini topic).1 = 200 <->
   key_rejected apiKey = false /\
   exists quizJson, gemini (quiz_request apiKey topic) = Parsed quizJson /\
     (generate_quiz apiKey gemini topic).1 = ok quizJson).
Proof.
  unfold generate_quiz. destruct (key_rejected apiKey) eqn:R; cbn [fst snd length].
  - split; [lia|]. split; [tauto|]. split; [right; reflexivity|].
    split; [discriminate | intros [H _]; discriminate H].
  - split; [lia|]. split; [split; discriminate|].
    destruct (gemini (quiz_request apiKey topic)) as [| | |quizJson]; cbn.
    + split; [auto|]. split; [discriminate | intros (_ & j & H & _); discriminate H].
    + split; [auto|]. split; [discriminate | intros (_ & j & H & _); discriminate H].
    + split; [auto|]. split; [discriminate | intros (_ & j & H & _); discriminate H].
    + split; [auto|]. split; [|reflexivity]. intros _. split; [reflexivity|]. eauto.
Qed.

End GatewayFurther.

(** ** More on selecting answers *)

Section SelectFurther.
Import App.

Lemma assign_assign (xs : list slot) (i : Z) (a b : slot) :
  assign (assign xs i a) i b = assign xs i b.
Proof.
  unfold assign. destruct (i <? 0)%Z eqn:Hneg; [reflexivity|].
  apply Z.ltb_ge in Hneg.
  destruct (Z.to_nat i <? length xs) eqn:Hin.
  - rewrite length_insert, Hin. apply list_insert_insert_eq.
  - apply Nat.ltb_ge in Hin. destruct (i <? 2 ^ 32 - 1)%Z eqn:Hmax.
    + rewrite !length_app, length_replicate. cbn [length].
      rewrite (proj2 (Nat.ltb_lt _ _)) by lia.
      rewrite !app_assoc. rewrite insert_app_r_alt by (rewrite length_app, length_replicate; lia).
      replace (Z.to_nat i - length (xs ++ replicate (Z.to_nat i - length xs) Undef))
        with 0 by (rewrite length_app, length_replicate; lia).
      reflexivity.
    + rewrite (proj2 (Nat.ltb_ge _ _) Hin). reflexivity.
Qed.

(** Selecting twice for the same question leaves what the second
    selection alone leaves, whatever the question index. *)
Theorem select_last_wins (questionIndex first second : Z) (s : state) :
  handleAnswerSelect questionIndex second (handleAnswerSelect questionIndex first s)
  = handleAnswerSelect questionIndex second s.
Proof.
  unfold handleAnswerSelect. destruct (userAnswers s) as [answers|] eqn:E.
  - cbn [userAnswers setUserAnswers]. rewrite assign_assign. reflexivity.
  - rewrite E. reflexivity.
Qed.

(** Selections for two different questions of the quiz can be made in
    either order. *)
Theorem select_distinct_commute (i j a b : Z) (s : state) (answers : list slot) :
  userAnswers s = Some answers ->
  (0 <= i < Z.of_nat (length answers))%Z -> (0 <= j < Z.of_nat (length answers))%Z ->
  i <> j ->
  handleAnswerSelect i a (handleAnswerSelect j b s)
  = handleAnswerSelect j b (handleAnswerSelect i a s).
Proof.
  intros E Hi Hj Hne.
  assert (In_bounds : forall k v, (0 <= k < Z.of_nat (length answers))%Z ->
            forall xs, length xs = length answers ->
            assign xs k v = <[Z.to_nat k := v]> xs).
  { intros k v Hk xs Hl. unfold assign.
    rewrite (proj2 (Z.ltb_ge k 0)) by lia.
    rewrite (proj2 (Nat.ltb_lt _ _)) by lia. reflexivity. }
  unfold handleAnswerSelect. rewrite E. cbn [userAnswers setUserAnswers].
  rewrite (In_bounds j (Chosen b) Hj answers eq_refl),
    (In_bounds i (Chosen a) Hi answers eq_refl),
    (In_bounds i (Chosen a) Hi _ (length_insert _ _ _)),
    (In_bounds j (Chosen b) Hj _ (length_insert _ _ _)).
  rewrite list_insert_insert_ne by lia. reflexivity.
Qed.

Lemma select_distinct_commute_witness :
  handleAnswerSelect 0 1 (handleAnswerSelect 1 2 two_unanswered)
  = handleAnswerSelect 1 2 (handleAnswerSelect 0 1 two_unanswered).
Proof.
  apply (select_distinct_commute 0 1 1 2 two_unanswered [Null; Null]);
    [reflexivity | cbn; lia | cbn; lia | discriminate].
Defined.

Lemma select_from_fills (ans : list Z) :
  forall (filled rest : list slot) (s : state),
    userAnswers s = Some (filled ++ rest) -> length rest = length ans ->
    select_from (Z.of_nat (length filled)) ans s
    = setUserAnswers (Some (filled ++ (Chosen <$> ans))) s.
Proof.
  induction ans as [|a ans IH]; intros filled rest s E Hl.
  - destruct rest; [|discriminate]. destruct s; cbn in *; subst. reflexivity.
  - destruct rest as [|x rest]; [discriminate|].
    cbn [select_from].
    assert (Hstep : handleAnswerSelect (Z.of_nat (length filled)) a s
                    = setUserAnswers (Some ((filled ++ [Chosen a]) ++ rest)) s).
    { unfold handleAnswerSelect, assign. rewrite E.
      rewrite (proj2 (Z.ltb_ge _ 0)) by lia. rewrite Nat2Z.id.
      rewrite (proj2 (Nat.ltb_lt _ _)) by (rewrite length_app; cbn; lia).
      rewrite insert_app_r_alt by lia. rewrite Nat.sub_diag. cbn [insert list_insert].
      rewrite <- app_assoc. reflexivity. }
    rewrite Hstep.
    replace (Z.of_nat (length filled) + 1)%Z with (Z.of_nat (length (filled ++ [Chosen a])))
      by (rewrite length_app; cbn; lia).
    rewrite (IH (filled ++ [Chosen a]) rest); [| reflexivity | cbn in Hl; lia].
    rewrite <- app_assoc. reflexivity.
Qed.

(** Answering every question in turn, from the first one on, leaves the
    answer vector holding exactly the selected options, and changes
    nothing else in the session. *)
Theorem select_every_question (ans : list Z) (s : state) (answers : list slot) :
  userAnswers s = Some answers -> length answers = length ans ->
  select_from 0 ans s = setUserAnswers (Some (Chosen <$> ans)) s.
Proof.
  intros E Hl. apply (select_from_fills ans [] answers s E Hl).
Qed.

Lemma select_every_question_witness :
  select_from 0 [3; 1]%Z two_unanswered
  = setUserAnswers (Some [Chosen 3; Chosen 1]) two_unanswered.
Proof.
  apply (select_every_question [3; 1]%Z two_unanswered [Null; Null]); reflexivity.
Defined.

End SelectFurther.

(** ** More on submitting *)

Section SubmitFurther.
Import App.

Lemma mark_counts (answers : list slot) (i : nat) (q : json) (sc sc' : Z)
    (entry : feedback_entry) :
  mark answers i q sc = Return (entry, sc') ->
  question entry = q /\ sc' = (sc + Z.of_nat (if isCorrect entry then 1 else 0))%Z.
Proof.
  unfold mark. destruct (prop q "correctIndex") as [c|]; [|discriminate].
  cbn [mbind completion_bind]. destruct (prop q "options") as [o|]; [|discriminate].
  cbn [mbind completion_bind]. destruct (at_slot o _) as [v|]; [|discriminate].
  cbn [mbind completion_bind]. intros [= <- <-]. cbn [question isCorrect].
  split; [reflexivity|]. destruct (strict_eq c _); lia.
Qed.

Lemma map_mark_counts (answers : list slot) (qs : list json) :
  forall (i : nat) (sc sc' : Z) (entries : list feedback_entry),
    map_mark answers i qs sc = Return (entries, sc') ->
    Forall2 (fun entry q => question entry = q) entries qs /\
    sc' = (sc + Z.of_nat (correct_entries entries))%Z.
Proof.
  induction qs as [|q qs IH]; intros i sc sc' entries H.
  - injection H as <- <-. split; [constructor | cbn; lia].
  - cbn [map_mark] in H.
    destruct (mark answers i q sc) as [[entry sc1]|] eqn:M; [|discriminate].
    cbn [mbind completion_bind] in H.
    destruct (map_mark answers (S i) qs sc1) as [[rest sc2]|] eqn:MM; [|discriminate].
    cbn [mbind completion_bind] in H. injection H as <- <-.
    destruct (mark_counts _ _ _ _ _ _ M) as [Hq ->].
    destruct (IH _ _ _ _ MM) as [Hall ->].
    split; [constructor; assumption|].
    unfold correct_entries. cbn [List.filter]. destruct (isCorrect entry); cbn [length]; lia.
Qed.

Lemma correct_entries_le (entries : list feedback_entry) :
  correct_entries entries <= length entries.
Proof.
  unfold correct_entries. induction entries as [|e entries IH]; [reflexivity|].
  cbn [List.filter]. destruct (isCorrect e); cbn [length]; lia.
Qed.

Lemma mark_unmarkable (answers : list slot) (i : nat) (q : json) (sc : Z) :
  unmarkable q -> mark answers i q sc = Throw TypeError.
Proof.
  intros [->|(props & -> & [H|H])]; [reflexivity| |];
    unfold mark; cbn [prop mbind completion_bind]; rewrite H; reflexivity.
Qed.

Lemma map_mark_unmarkable (answers : list slot) (qs : list json) :
  Exists unmarkable qs ->
  forall i sc, exists e, map_mark answers i qs sc = Throw e.
Proof.
  induction 1 as [q qs Hq|q qs _ IH]; intros i sc; cbn [map_mark].
  - rewrite (mark_unmarkable _ _ _ _ Hq). eexists. reflexivity.
  - destruct (mark answers i q sc) as [[entry sc1]|e]; cbn [mbind completion_bind].
    + destruct (IH (S i) sc1) as [e ->]. eexists. reflexivity.
    + eexists. reflexivity.
Qed.

(** The four ways [handleSubmitQuiz] ends. *)
Lemma submit_cases (now : string) (b : backend) (s : state) :
  (userAnswers s = None /\ handleSubmitQuiz now b s = (s, b)) \/
  (exists answers, userAnswers s = Some answers /\ existsb is_null answers = true /\
     handleSubmitQuiz now b s = (setError "Please answer all questions." s, b)) \/
  (exists answers, userAnswers s = Some answers /\ existsb is_null answers = false /\
     (forall qs marked, quizData s = Some (JArr qs) ->
        map_mark answers 0 qs 0%Z <> Return marked) /\
     handleSubmitQuiz now b s = (setIsLoading true s, b)) \/
  (exists answers qs entries sc,
     userAnswers s = Some answers /\ existsb is_null answers = false /\
     quizData s = Some (JArr qs) /\
     map_mark answers 0 qs 0%Z = Return (entries, sc) /\
     handleSubmitQuiz now b s
     = (setIsLoading false
          (setResults (Some {| score := sc; total := length qs; feedback := entries |})
             (setIsLoading true s)),
        with_storage
          (Server.save_score (newScoreData s sc (length qs) now) (storage b)).2 b)).
Proof.
  unfold handleSubmitQuiz. destruct (userAnswers s) as [answers|] eqn:E; [|left; auto].
  right. destruct (existsb is_null answers) eqn:N; [left; eauto|].
  right. cbn [quizData setIsLoading].
  destruct (quizData s) as [[| | | |qs|]|] eqn:Q; cbn [elements mbind completion_bind];
    try (left; exists answers; repeat split; auto; intros ? ? [=]).
  destruct (map_mark answers 0 qs 0%Z) as [[entries sc]|e] eqn:M;
    cbn [mbind completion_bind mret completion_ret].
  - right. exists answers, qs, entries, sc. repeat split; auto.
    unfold newScoreData. cbn [currentUser topic setResults setIsLoading].
    destruct (Server.save_score _ _) as [res d]. reflexivity.
  - left. exists answers. repeat split; auto. intros qs' marked [= <-]. congruence.
Qed.

(** Whatever the quiz and the answers: [handleSubmitQuiz] leaves the
    results as they were, or attaches results with one feedback entry per
    question, in the order of the quiz, a total that is the number of
    questions, and a score that is the number of entries marked correct,
    so between 0 and the total. *)
Theorem submit_results_consistent (now : string) (b : backend) (s : state) :
  results (handleSubmitQuiz now b s).1 = results s \/
  exists r qs,
    results (handleSubmitQuiz now b s).1 = Some r /\
    quizData s = Some (JArr qs) /\
    Forall2 (fun entry q => question entry = q) (feedback r) qs /\
    total r = length qs /\
    score r = Z.of_nat (correct_entries (feedback r)) /\
    (0 <= score r <= Z.of_nat (total r))%Z.
Proof.
  destruct (submit_cases now b s)
    as [[_ ->]|[(a & _ & _ & ->)|[(a & _ & _ & _ & ->)|(a & qs & entries & sc & _ & _ & Q & M & ->)]]];
    try (left; reflexivity).
  right. destruct (map_mark_counts _ _ _ _ _ _ M) as [Hall Hsc].
  eexists _, qs. split; [reflexivity|]. cbn [score total feedback].
  split; [exact Q|]. split; [exact Hall|]. split; [reflexivity|].
  pose proof (correct_entries_le entries) as Hle.
  pose proof (Forall2_length _ _ _ Hall) as Hlen.
  split; lia.
Qed.

(** A question that is [null], or has no [options], makes the callback
    throw: with every answer set, the handler stops after it has set the
    loading flag.  No results are attached, nothing is sent to the
    backend, and the flag is never cleared. *)
Theorem submit_unmarkable_question_hangs (now : string) (b : backend) (s : state)
    (answers : list slot) (qs : list json) :
  userAnswers s = Some answers -> existsb is_null answers = false ->
  quizData s = Some (JArr qs) -> Exists unmarkable qs ->
  handleSubmitQuiz now b s = (setIsLoading true s, b).
Proof.
  intros E N Q X.
  destruct (map_mark_unmarkable answers qs X 0 0%Z) as [e Hthrow].
  destruct (submit_cases now b s)
    as [[E' _]|[(a & E' & N' & _)|[(a & _ & _ & _ & H)|(a & qs' & entries & sc & E' & _ & Q' & M & _)]]];
    congruence.
Qed.

Lemma submit_unmarkable_question_hangs_witness :
  handleSubmitQuiz "2025-01-01T00:00:00.000Z" (replying JNull) null_question_answered
  = (setIsLoading true null_question_answered, replying JNull).
Proof.
  apply (submit_unmarkable_question_hangs _ _ _ [Chosen 0] [JNull]);
    [reflexivity | reflexivity | reflexivity |].
  constructor. left. reflexivity.
Defined.

(** [handleSubmitQuiz] changes the backend in its disk only, and there
    only in the history of the current user: what [get-scores] answers
    for any other name is as before. *)
Theorem submit_touches_own_history_only (now : string) (b : backend) (s : state)
    (v : string) :
  currentUser s <> Some v ->
  GEMINI_API_KEY (handleSubmitQuiz now b s).2 = GEMINI_API_KEY b /\
  gemini (handleSubmitQuiz now b s).2 = gemini b /\
  Server.get_scores (Some v) (storage (handleSubmitQuiz now b s).2)
  = Server.get_scores (Some v) (storage b).
Proof.
  intros Hv.
  destruct (submit_cases now b s)
    as [[_ ->]|[(a & _ & _ & ->)|[(a & _ & _ & _ & ->)|(a & qs & entries & sc & _ & _ & _ & _ & ->)]]];
    try (repeat split; reflexivity).
  cbn [snd with_storage GEMINI_API_KEY gemini storage]. repeat split.
  apply get_scores_entry. intros k [= <-]. apply save_score_frame. exact Hv.
Qed.

Lemma submit_touches_own_history_only_witness :
  Server.get_scores (Some "bob")
    (storage (handleSubmitQuiz "2025-01-01T00:00:00.000Z" (replying JNull)
                (select_from 0 [0; 0]%Z two_unanswered)).2)
  = Server.get_scores (Some "bob") (storage (replying JNull)).
Proof.
  apply (submit_touches_own_history_only "2025-01-01T00:00:00.000Z" (replying JNull)
           (select_from 0 [0; 0]%Z two_unanswered) "bob").
  discriminate.
Defined.

End SubmitFurther.

(** ** More on generating *)

Section GenerateFurther.
Import App.

Variable conv : json -> completion bool.

Lemma new_Array_fill_nulls (len : option json) (answers : list slot) :
  new_Array_fill len = Return answers -> Forall (eq Null) answers.
Proof.
  unfold new_Array_fill. destruct len as [[| |n| | |]|];
    try (intros [= <-]; repeat constructor).
  destruct (_ && _); [|discriminate]. intros [= <-].
  apply Forall_forall. intros x Hx. apply elem_of_replicate in Hx as [-> _]. reflexivity.
Qed.

Lemma accept_outcome (questions : json) (s0 : state) :
  block_outcome s0 (accept conv questions s0).1 (accept conv questions s0).2.
Proof.
  unfold accept, mbind, action_bind, lift, update, mret, action_ret.
  assert (Failed : block_outcome s0 (Return tt) (setError "Failed to generate quiz." s0)).
  { repeat split. right. reflexivity. }
  destruct (truthy questions) eqn:T; [|exact Failed].
  destruct (gt_zero conv (length_of questions)) as [[|]|e]; [| exact Failed | repeat split].
  destruct (new_Array_fill (length_of questions)) as [answers|e] eqn:F; [|repeat split].
  cbn [fst snd]. repeat split. left. split; [reflexivity|].
  exists questions, answers. repeat split; [exact T|].
  apply (new_Array_fill_nulls _ _ F).
Qed.

Lemma receive_outcome (data : json) (s0 : state) :
  block_outcome s0 (receive conv data s0).1 (receive conv data s0).2.
Proof.
  unfold receive, mbind, action_bind, lift.
  destruct (prop data "questions") as [q|e]; [apply accept_outcome | repeat split].
Qed.

(** How [handleGenerateQuiz] ends, for a topic that is not blank. *)
Lemma generate_cases (b : backend) (s : state) :
  truthy (JStr (trim (topic s))) = true ->
  exists c s1, block_outcome (requesting s) c s1 /\
    handleGenerateQuiz conv b s
    = setIsLoading false
        match c with
        | Return _ => s1
        | Throw _ => setError "Error connecting to AI service." s1
        end.
Proof.
  intros Ht. unfold handleGenerateQuiz. rewrite Ht. cbn [negb].
  fold (requesting s). unfold try_catch_finally.
  destruct (Server.generate_quiz _ _ _) as [res calls].
  unfold mbind, action_bind, lift.
  destruct (response_data res) as [data|e].
  - pose proof (receive_outcome data (requesting s)) as H.
    destruct (receive conv data (requesting s)) as [c s1]. exists c, s1.
    split; [exact H|]. destruct c; reflexivity.
  - exists (Throw e), (requesting s). split; [repeat split | reflexivity].
Qed.

(** Every call of [handleGenerateQuiz]: a blank topic changes nothing.
    Otherwise the loading flag ends cleared, no results are attached, the
    user and the topic are kept, and the session ends in one of three
    ways: no message, and a quiz is shown with answers that are all
    [null]; the message that nothing was generated, and no quiz; or the
    message that the service could not be reached. *)
Theorem generate_outcomes (b : backend) (s : state) :
  (truthy (JStr (trim (topic s))) = false -> handleGenerateQuiz conv b s = s) /\
  (truthy (JStr (trim (topic s))) = true ->
   isLoading (handleGenerateQuiz conv b s) = false /\
   results (handleGenerateQuiz conv b s) = None /\
   currentUser (handleGenerateQuiz conv b s) = currentUser s /\
   topic (handleGenerateQuiz conv b s) = topic s /\
   ((error (handleGenerateQuiz conv b s) = "" /\
     phase_of (handleGenerateQuiz conv b s) = Active /\
     exists q answers,
       quizData (handleGenerateQuiz conv b s) = Some q /\
       userAnswers (handleGenerateQuiz conv b s) = Some answers /\
       Forall (eq Null) answers) \/
    (error (handleGenerateQuiz conv b s) = "Failed to generate quiz." /\
     quizData (handleGenerateQuiz conv b s) = None) \/
    error (handleGenerateQuiz conv b s) = "Error connecting to AI service.")).
Proof.
  split.
  - intros Ht. unfold handleGenerateQuiz. rewrite Ht. reflexivity.
  - intros Ht. destruct (generate_cases b s Ht) as (c & s1 & (Hr & Hu & Htop & _ & Hc) & ->).
    split; [destruct c; reflexivity|].
    split; [destruct c; cbn; exact Hr|].
    split; [destruct c; cbn; exact Hu|].
    split; [destruct c; cbn; exact Htop|].
    destruct c as [[]|e]; [|right; right; reflexivity].
    destruct Hc as [(He & q & answers & Hq & Tq & Ha & Hn)| ->].
    + left. cbn [error setIsLoading]. split; [exact He|]. split.
      * unfold phase_of. cbn [results quizData setIsLoading]. rewrite Hr, Hq. cbn.
        rewrite Tq. reflexivity.
      * exists q, answers. cbn. auto.
    + right; left. split; reflexivity.
Qed.

(** With a key the backend rejects, the component never gets to see the
    configuration error: the session ends without a quiz, with the
    message that the service could not be reached. *)
Theorem generate_with_rejected_key (b : backend) (s : state) :
  truthy (JStr (trim (topic s))) = true ->
  Server.key_rejected (GEMINI_API_KEY b) = true ->
  handleGenerateQuiz conv b s
  = setIsLoading false (setError "Error connecting to AI service." (requesting s)).
Proof.
  intros Ht Hk. unfold handleGenerateQuiz. rewrite Ht. cbn [negb].
  unfold Server.generate_quiz. rewrite Hk. reflexivity.
Qed.

End GenerateFurther.

Section GenerateFurtherExamples.
Import App.

Lemma generate_with_rejected_key_witness :
  error (handleGenerateQuiz no_conversion
           {| GEMINI_API_KEY := None; gemini := silent; storage := no_file |} idle)
  = "Error connecting to AI service.".
Proof.
  rewrite (generate_with_rejected_key no_conversion
             {| GEMINI_API_KEY := None; gemini := silent; storage := no_file |} idle
             eq_refl eq_refl).
  reflexivity.
Defined.

End GenerateFurtherExamples.

(** ** Whole sessions *)

Section Sessions.
Import App.

Lemma save_score_recorded (req : Server.score_request) (u : string) (d : Server.disk)
    (old : list json) :
  Server.username req = Some u -> u <> "" -> truthy_opt (Server.topic req) = true ->
  Server.accepts_writes d = true -> history (Server.readDb d) u = Some old ->
  Server.get_scores (Some u) (Server.save_score req d).2
  = ok (JArr (old ++ [Server.scoreData req])).
Proof.
  intros Hu Hne Ht W Hh. rewrite (save_score_checked req u d Hu Hne Ht), Hh. cbn [snd].
  apply get_scores_history; [exact Hne|].
  rewrite writeDb_stores by assumption. apply history_array, lookup_insert_eq.
Qed.

Lemma trim_blank_topic (t : string) : truthy (JStr (trim t)) = true -> t <> "".
Proof. intros H ->. discriminate H. Qed.

Lemma truthy_topic (t : string) : t <> "" -> truthy_opt (Some (JStr t)) = true.
Proof.
  intros H. cbn. destruct (String.eqb_spec t ""); [contradiction | reflexivity].
Qed.

(** [handleSubmitQuiz] on a quiz that can be marked, with every answer a
    number. *)
Lemma submit_effect (now : string) (b : backend) (s : state) (qs : list json)
    (ans : list Z) :
  quizData s = Some (JArr qs) -> userAnswers s = Some (Chosen <$> ans) ->
  length ans = length qs -> Forall answerable qs ->
  exists entries,
    handleSubmitQuiz now b s
    = (setIsLoading false
         (setResults (Some {| score := Z.of_nat (matches qs ans); total := length qs;
                              feedback := entries |})
            (setIsLoading true s)),
       with_storage
         (Server.save_score (newScoreData s (Z.of_nat (matches qs ans)) (length qs) now)
            (storage b)).2 b).
Proof.
  intros Q E Hl Hall.
  destruct (map_mark_chosen (Chosen <$> ans) qs ans 0 0%Z eq_refl Hl Hall)
    as (entries & Hm & _).
  exists entries.
  destruct (submit_cases now b s)
    as [[E' _]|[(a & E' & N & _)|[(a & E' & _ & Hno & _)|(a & qs' & entries' & sc & E' & _ & Q' & M & ->)]]].
  - congruence.
  - assert (a = Chosen <$> ans) as -> by congruence.
    rewrite existsb_is_null_chosen in N. discriminate.
  - assert (a = Chosen <$> ans) as -> by congruence.
    destruct (Hno _ _ Q Hm).
  - assert (a = Chosen <$> ans) as -> by congruence.
    assert (qs' = qs) as -> by congruence.
    rewrite Hm in M. injection M as <- <-. reflexivity.
Qed.

(** Submitting a quiz in which every question has [options] and every
    slot holds an answer, as a logged-in user with a name and a topic
    that are not empty, on a disk that takes the write, when the user has
    a history [old] to append to ([history (readDb ..) u = Some old]: the
    ledger read holds under the user's name an array, [old] its items, or
    a falsy value, or holds nothing under it and the name is no member
    name of [Object.prototype], [old] empty in both cases).  The session
    shows the results, with the loading flag cleared, and [get-scores]
    for the user then returns [old] followed by the attempt: the topic,
    the score (the number of answers that are the question's
    [correctIndex]), the number of questions and the time of
    submission. *)
Theorem submit_records_attempt (now : string) (b : backend) (s : state)
    (qs : list json) (ans : list Z) (u : string) (old : list json) :
  quizData s = Some (JArr qs) -> userAnswers s = Some (Chosen <$> ans) ->
  length ans = length qs -> Forall answerable qs ->
  currentUser s = Some u -> u <> "" -> topic s <> "" ->
  Server.accepts_writes (storage b) = true ->
  history (Server.readDb (storage b)) u = Some old ->
  phase_of (handleSubmitQuiz now b s).1 = Scored /\
  isLoading (handleSubmitQuiz now b s).1 = false /\
  Server.get_scores (Some u) (storage (handleSubmitQuiz now b s).2)
  = ok (JArr (old ++ [stored_attempt (topic s) (Z.of_nat (matches qs ans))
                        (length qs) now])).
Proof.
  intros Q E Hl Hall Hu Hne Htop W Hh.
  destruct (submit_effect now b s qs ans Q E Hl Hall) as [entries ->].
  cbn [fst snd storage with_storage]. split; [reflexivity|]. split; [reflexivity|].
  rewrite (save_score_recorded _ u _ old); try assumption; [reflexivity|].
  apply truthy_topic, Htop.
Qed.

Lemma submit_records_attempt_witness :
  Server.get_scores (Some "alice")
    (storage (handleSubmitQuiz "2025-01-01T00:00:00.000Z" (replying JNull)
                (select_from 0 [0; 0]%Z two_unanswered)).2)
  = ok (JArr [stored_attempt "Space" 1 2 "2025-01-01T00:00:00.000Z"]).
Proof.
  apply (submit_records_attempt "2025-01-01T00:00:00.000Z" (replying JNull)
           (select_from 0 [0; 0]%Z two_unanswered)
           [sample_question "first" 0; sample_question "second" 3] [0; 0]%Z "alice" []);
    try reflexivity; try discriminate.
  repeat constructor; apply answerable_sample.
Defined.

(** A whole session.  A logged-in user, whose name is not empty, asks for
    a quiz on a topic that is not blank; the key passes the check and the
    provider's reply holds a list of questions, not empty and shorter
    than [2^32], each with [options].  The session then shows the quiz
    with one [null] answer per question.  The user answers every question
    in turn and submits, on a disk that takes the write, when the user
    has a history [old] to append to ([history (readDb ..) u = Some old]:
    the ledger read holds under the user's name an array, [old] its
    items, or a falsy value, or holds nothing under it and the name is no
    member name of [Object.prototype], [old] empty in both cases).  The
    session shows the results, and [get-scores] for the user returns
    [old] followed by the attempt, whose score is the number of answers
    that are the question's [correctIndex]. *)
Theorem quiz_session_records_attempt (conv : json -> completion bool) (now : string)
    (b : backend) (s : state) (reply : json) (qs : list json) (ans : list Z)
    (u : string) (old : list json) :
  truthy (JStr (trim (topic s))) = true ->
  Server.key_rejected (GEMINI_API_KEY b) = false ->
  gemini b (Server.quiz_request (GEMINI_API_KEY b) (Some (topic s))) = Server.Parsed reply ->
  question_list reply = Some qs -> qs <> [] -> (Z.of_nat (length qs) < 2 ^ 32)%Z ->
  Forall answerable qs -> length ans = length qs ->
  currentUser s = Some u -> u <> "" ->
  Server.accepts_writes (storage b) = true ->
  history (Server.readDb (storage b)) u = Some old ->
  let active := handleGenerateQuiz conv b s in
  let submitted := handleSubmitQuiz now b (select_from 0 ans active) in
  phase_of active = Active /\
  userAnswers active = Some (replicate (length qs) Null) /\
  phase_of submitted.1 = Scored /\
  (score <$> results submitted.1) = Some (Z.of_nat (matches qs ans)) /\
  (total <$> results submitted.1) = Some (length qs) /\
  Server.get_scores (Some u) (storage submitted.2)
  = ok (JArr (old ++ [stored_attempt (topic s) (Z.of_nat (matches qs ans))
                        (length qs) now])).
Proof.
  intros Ht Hk Hg Hq Hne Hlen Hall Hl Hu Hune W Hh active submitted.
  assert (Hactive : active
            = setIsLoading false
                (setUserAnswers (Some (replicate (length qs) Null))
                   (setQuizData (Some (JArr qs)) (requesting s)))).
  { subst active. rewrite (handleGenerateQuiz_parsed conv b s reply Ht Hk Hg).
    rewrite (receive_question_list conv _ _ _ Hq), (accept_array conv _ _ Hne Hlen).
    reflexivity. }
  assert (Hsel : select_from 0 ans active = setUserAnswers (Some (Chosen <$> ans)) active).
  { apply (select_from_fills ans [] (replicate (length qs) Null)).
    - rewrite Hactive. reflexivity.
    - rewrite length_replicate. symmetry. exact Hl. }
  destruct (submit_effect now b (select_from 0 ans active) qs ans) as [entries Hsub];
    try assumption; try (rewrite Hsel, Hactive; reflexivity).
  subst submitted. rewrite Hsub. cbn [fst snd storage with_storage].
  split; [rewrite Hactive; reflexivity|].
  split; [rewrite Hactive; reflexivity|].
  split; [reflexivity|]. split; [reflexivity|]. split; [reflexivity|].
  rewrite (save_score_recorded _ u _ old); try assumption.
  - rewrite Hsel, Hactive. reflexivity.
  - rewrite Hsel, Hactive. exact Hu.
  - rewrite Hsel, Hactive. apply truthy_topic, trim_blank_topic, Ht.
Qed.

Lemma quiz_session_records_attempt_witness :
  Server.get_scores (Some "alice")
    (storage (handleSubmitQuiz "2025-01-01T00:00:00.000Z"
                (replying (JObj {[ "questions" := JArr ten_questions ]}))
                (select_from 0 ten_answers
                   (handleGenerateQuiz no_conversion
                      (replying (JObj {[ "questions" := JArr ten_questions ]})) idle))).2)
  = ok (JArr [stored_attempt "Space" 7 10 "2025-01-01T00:00:00.000Z"]).
Proof.
  apply (quiz_session_records_attempt no_conversion "2025-01-01T00:00:00.000Z"
           (replying (JObj {[ "questions" := JArr ten_questions ]})) idle
           (JObj {[ "questions" := JArr ten_questions ]}) ten_questions ten_answers
           "alice" []);
    try reflexivity; try discriminate; try (vm_compute; discriminate).
  unfold ten_questions. cbn [fmap list_fmap].
  repeat constructor; apply answerable_sample.
Defined.

End Sessions.

(** ** The life of a session *)

Section Lifecycle.
Import App.

Variable conv : json -> completion bool.

Lemma results_fit_same (s s' : state) :
  results s' = results s -> quizData s' = quizData s -> results_fit s -> results_fit s'.
Proof. unfold results_fit. intros -> ->. auto. Qed.

Lemma results_fit_none (s : state) : results s = None -> results_fit s.
Proof. unfold results_fit. intros -> r H. discriminate H. Qed.

Lemma submit_keeps_results_fit (now : string) (b : backend) (s : state) :
  results_fit s -> results_fit (handleSubmitQuiz now b s).1.
Proof.
  intros H.
  destruct (submit_cases now b s)
    as [[_ ->]|[(a & _ & _ & ->)|[(a & _ & _ & _ & ->)|(a & qs & entries & sc & _ & _ & Q & M & ->)]]];
    try (apply (results_fit_same s); [reflexivity | reflexivity | exact H]).
  destruct (map_mark_counts _ _ _ _ _ _ M) as [Hall Hsc].
  pose proof (correct_entries_le entries) as Hle.
  pose proof (Forall2_length _ _ _ Hall) as Hlen.
  intros r [= <-]. exists qs. cbn [fst quizData setIsLoading setResults score total feedback].
  split; [exact Q|]. split; [reflexivity|]. split; [exact Hlen|]. split; lia.
Qed.

Lemma generate_keeps_results_fit (b : backend) (s : state) :
  results_fit s -> results_fit (handleGenerateQuiz conv b s).
Proof.
  intros H. destruct (truthy (JStr (trim (topic s)))) eqn:Ht.
  - apply results_fit_none.
    destruct (generate_cases conv b s Ht) as (c & s1 & (Hr & _) & ->).
    destruct c; cbn; exact Hr.
  - unfold handleGenerateQuiz. rewrite Ht. exact H.
Qed.

Lemma step_keeps_results_fit (e : event) (w : state * backend) :
  results_fit w.1 -> results_fit (step conv e w).1.
Proof.
  intros H. destruct e; cbn [step fst].
  - unfold handleLogin. destruct (truthy _); [apply results_fit_none; reflexivity | exact H].
  - apply results_fit_none. reflexivity.
  - apply (results_fit_same w.1); [reflexivity | reflexivity | exact H].
  - apply generate_keeps_results_fit, H.
  - unfold handleAnswerSelect. destruct (userAnswers w.1); [|exact H].
    apply (results_fit_same w.1); [reflexivity | reflexivity | exact H].
  - apply submit_keeps_results_fit, H.
  - apply results_fit_none. reflexivity.
Qed.

(** Whatever the user does and whatever the provider returns, results
    that are attached belong to the quiz in the session: the quiz is an
    array, there is one feedback entry per question, the total is the
    number of questions, and the score is the number of entries marked
    correct, between 0 and the total.  This holds at every point of every
    session that starts with the cells as [useState] creates them. *)
Theorem results_always_fit_the_quiz (events : list event) (w : state * backend) :
  results_fit w.1 -> results_fit (run conv events w).1.
Proof.
  revert w. induction events as [|e events IH]; intros w H; [exact H|].
  cbn [run]. apply IH, step_keeps_results_fit, H.
Qed.

Lemma generate_keeps_user (b : backend) (s : state) :
  currentUser (handleGenerateQuiz conv b s) = currentUser s.
Proof.
  destruct (truthy (JStr (trim (topic s)))) eqn:Ht.
  - destruct (generate_cases conv b s Ht) as (c & s1 & (_ & Hu & _) & ->).
    destruct c; cbn; exact Hu.
  - unfold handleGenerateQuiz. rewrite Ht. reflexivity.
Qed.

Lemma submit_keeps_user (now : string) (b : backend) (s : state) :
  currentUser (handleSubmitQuiz now b s).1 = currentUser s.
Proof.
  destruct (submit_cases now b s)
    as [[_ ->]|[(a & _ & _ & ->)|[(a & _ & _ & _ & ->)|(a & qs & entries & sc & _ & _ & _ & _ & ->)]]];
    reflexivity.
Qed.

(** The user stays logged in: as long as nobody logs in or out, no
    sequence of typing, generating, selecting, submitting and taking
    another quiz changes the current user. *)
Theorem user_kept_until_login_or_logout (events : list event) (w : state * backend) :
  Forall keeps_user events -> currentUser (run conv events w).1 = currentUser w.1.
Proof.
  revert w. induction events as [|e events IH]; intros w H; [reflexivity|].
  apply Forall_cons in H as [He H]. cbn [run]. rewrite (IH _ H).
  destruct e; cbn [step fst]; try contradiction; try reflexivity.
  - apply generate_keeps_user.
  - unfold handleAnswerSelect. destruct (userAnswers w.1); reflexivity.
  - apply submit_keeps_user.
Qed.

End Lifecycle.

Section LifecycleExamples.
Import App.

Lemma results_always_fit_the_quiz_witness :
  results_fit
    (run no_conversion
       [Login " alice "; TypeTopic "Space";
        Generate (fun _ => Server.Parsed (JArr [sample_question "first" 0]));
        Select 0 0; Submit "2025-01-01T00:00:00.000Z"]
       (initial, replying JNull)).1.
Proof.
  apply (results_always_fit_the_quiz no_conversion).
  intros r H. discriminate H.
Defined.

Lemma user_kept_until_login_or_logout_witness :
  currentUser
    (run no_conversion
       [TypeTopic "Space";
        Generate (fun _ => Server.Parsed (JArr [sample_question "first" 0]));
        Select 0 0; Submit "2025-01-01T00:00:00.000Z"; TakeAnother]
       (idle, replying JNull)).1
  = Some "alice".
Proof.
  apply (user_kept_until_login_or_logout no_conversion
           [TypeTopic "Space";
            Generate (fun _ => Server.Parsed (JArr [sample_question "first" 0]));
            Select 0 0; Submit "2025-01-01T00:00:00.000Z"; TakeAnother]
           (idle, replying JNull)).
  repeat constructor.
Defined.

End LifecycleExamples.

(** ** Logging in *)

Section LoginFurther.
Import App.

Lemma rev_app_spec (s acc : string) :
  String.rev_app s acc = String.rev_app s "" +:+ acc.
Proof.
  revert acc. induction s as [|c s IH]; intros acc; [reflexivity|].
  cbn [String.rev_app]. rewrite (IH (String c acc)), (IH (String c "")).
  generalize (String.rev_app s ""). intros t.
  induction t as [|c' t IHt]; [reflexivity|].
  change (String c' t +:+ String c acc) with (String c' (t +:+ String c acc)).
  rewrite IHt. reflexivity.
Qed.

Lemma last_char_app (s : string) (c : Ascii.ascii) :
  last_char (s +:+ String c "") = Some c.
Proof.
  induction s as [|c' s IH]; [reflexivity|].
  change (String c' s +:+ String c "") with (String c' (s +:+ String c "")).
  cbn [last_char]. destruct (s +:+ String c "") eqn:E; [|exact IH].
  destruct s; discriminate E.
Qed.

Lemma first_char_app (s t : string) :
  s <> "" -> first_char (s +:+ t) = first_char s.
Proof. destruct s; [congruence | reflexivity]. Qed.

Lemma last_char_rev (s : string) : last_char (String.rev s) = first_char s.
Proof.
  destruct s as [|c s]; [reflexivity|].
  unfold String.rev. cbn [String.rev_app]. rewrite rev_app_spec. apply last_char_app.
Qed.

Lemma last_char_some (s : string) : s <> "" -> exists c, last_char s = Some c.
Proof.
  induction s as [|c s IH]; [congruence|]. intros _.
  destruct s as [|c' s]; [exists c; reflexivity|]. apply IH. discriminate.
Qed.

Lemma first_char_rev (s : string) : first_char (String.rev s) = last_char s.
Proof.
  induction s as [|c s IH]; [reflexivity|].
  unfold String.rev in *. cbn [String.rev_app]. rewrite rev_app_spec.
  destruct s as [|c' s]; [reflexivity|].
  rewrite first_char_app, IH; [reflexivity|].
  intros E. cbn [String.rev_app] in E. rewrite rev_app_spec in E.
  destruct (String.rev_app s ""); discriminate E.
Qed.

Lemma trimStart_first (s : string) (c : Ascii.ascii) :
  first_char (trimStart s) = Some c -> is_space c = false.
Proof.
  induction s as [|c' s IH]; [discriminate|]. cbn [trimStart].
  destruct (is_space c') eqn:E; [exact IH|]. intros [= <-]. exact E.
Qed.

Lemma trimStart_last (s : string) :
  trimStart s = "" \/ last_char (trimStart s) = last_char s.
Proof.
  induction s as [|c s IH]; [left; reflexivity|]. cbn [trimStart].
  destruct (is_space c); [|right; reflexivity].
  destruct IH as [IH|IH]; [left; exact IH|].
  destruct s as [|c' s]; [left; reflexivity|]. right. rewrite IH. reflexivity.
Qed.

(** What [trim] returns neither starts nor ends with white space. *)
Lemma trim_ends (s : string) (c : Ascii.ascii) :
  first_char (trim s) = Some c \/ last_char (trim s) = Some c -> is_space c = false.
Proof.
  unfold trim. intros [H|H].
  - rewrite first_char_rev in H.
    destruct (trimStart_last (String.rev (trimStart s))) as [E|E].
    + rewrite E in H. discriminate H.
    + rewrite E, last_char_rev in H. apply (trimStart_first _ _ H).
  - rewrite last_char_rev in H. apply (trimStart_first _ _ H).
Qed.

Lemma append_nil_r (s : string) : s +:+ "" = s.
Proof.
  induction s as [|c s IH]; [reflexivity|].
  change (String c s +:+ "") with (String c (s +:+ "")). rewrite IH. reflexivity.
Qed.

Lemma append_assoc (a b c : string) : (a +:+ b) +:+ c = a +:+ b +:+ c.
Proof.
  induction a as [|x a IH]; [reflexivity|].
  change ((String x a +:+ b) +:+ c) with (String x ((a +:+ b) +:+ c)).
  rewrite IH. reflexivity.
Qed.

Lemma rev_cons (c : Ascii.ascii) (s : string) :
  String.rev (String c s) = String.rev s +:+ String c "".
Proof. unfold String.rev. cbn [String.rev_app]. apply rev_app_spec. Qed.

Lemma rev_append (a b : string) :
  String.rev (a +:+ b) = String.rev b +:+ String.rev a.
Proof.
  induction a as [|x a IH].
  - change ("" +:+ b) with b. change (String.rev "") with "". rewrite append_nil_r.
    reflexivity.
  - change (String x a +:+ b) with (String x (a +:+ b)).
    rewrite !rev_cons, IH, append_assoc. reflexivity.
Qed.

Lemma rev_rev (s : string) : String.rev (String.rev s) = s.
Proof.
  induction s as [|c s IH]; [reflexivity|].
  rewrite rev_cons, rev_append, IH. reflexivity.
Qed.

Lemma all_space_append (a b : string) :
  all_space (a +:+ b) = all_space a && all_space b.
Proof.
  induction a as [|x a IH]; [reflexivity|].
  change (String x a +:+ b) with (String x (a +:+ b)). cbn [all_space].
  rewrite IH. apply andb_assoc.
Qed.

Lemma all_space_rev (s : string) : all_space (String.rev s) = all_space s.
Proof.
  induction s as [|c s IH]; [reflexivity|].
  rewrite rev_cons, all_space_append, IH. cbn [all_space].
  rewrite andb_true_r. apply andb_comm.
Qed.

(** [trimStart] removes white space at the front, and nothing else. *)
Lemma trimStart_split (s : string) :
  exists pre, s = pre +:+ trimStart s /\ all_space pre = true.
Proof.
  induction s as [|c s (pre & E & P)]; [exists ""; split; reflexivity|].
  cbn [trimStart]. destruct (is_space c) eqn:C.
  - exists (String c pre).
    change (String c pre +:+ trimStart s) with (String c (pre +:+ trimStart s)).
    rewrite <- E. cbn [all_space]. rewrite C, P. split; reflexivity.
  - exists "". split; reflexivity.
Qed.

Lemma trimStart_all_space (s : string) : all_space s = true -> trimStart s = "".
Proof.
  induction s as [|c s IH]; [reflexivity|]. cbn [all_space trimStart].
  intros H. apply andb_true_iff in H as [-> H]. apply IH, H.
Qed.

(** [trim] removes white space at both ends, and nothing else. *)
Lemma trim_split (s : string) :
  exists pre post,
    s = pre +:+ trim s +:+ post /\ all_space pre = true /\ all_space post = true.
Proof.
  destruct (trimStart_split s) as (pre & E & P).
  destruct (trimStart_split (String.rev (trimStart s))) as (q & Eq & Q).
  exists pre, (String.rev q). split; [|split; [exact P|]].
  - unfold trim. rewrite <- rev_append, <- Eq, rev_rev. exact E.
  - rewrite all_space_rev. exact Q.
Qed.

Lemma trim_blank (s : string) : all_space s = true <-> trim s = "".
Proof.
  split.
  - intros H. unfold trim. rewrite (trimStart_all_space s H). reflexivity.
  - intros H. destruct (trim_split s) as (pre & post & E & P & Q).
    rewrite E, H, !all_space_append, P, Q. reflexivity.
Qed.

(** Logging in.  A name that holds white space only (or nothing) changes
    nothing.  Any other name is the current user's name with white space
    before and after it: the current user becomes that name, which is not
    empty and neither starts nor ends with white space, and the session
    shows the topic form, with the topic and the message cleared. *)
Theorem login_takes_trimmed_name (usernameInput : string) (s : state) :
  (all_space usernameInput = true -> handleLogin usernameInput s = s) /\
  (all_space usernameInput = false ->
   exists name pre post,
     usernameInput = pre +:+ name +:+ post /\
     all_space pre = true /\ all_space post = true /\
     name <> "" /\
     (forall c, first_char name = Some c \/ last_char name = Some c -> is_space c = false) /\
     currentUser (handleLogin usernameInput s) = Some name /\
     phase_of (handleLogin usernameInput s) = Idle /\
     topic (handleLogin usernameInput s) = "" /\
     error (handleLogin usernameInput s) = "").
Proof.
  split.
  - intros H. apply trim_blank in H. unfold handleLogin. rewrite H. reflexivity.
  - intros H.
    assert (Hne : trim usernameInput <> "").
    { intros E. apply trim_blank in E. congruence. }
    destruct (trim_split usernameInput) as (pre & post & E & P & Q).
    exists (trim usernameInput), pre, post.
    split; [exact E|]. split; [exact P|]. split; [exact Q|]. split; [exact Hne|].
    split; [apply trim_ends|].
    unfold handleLogin.
    assert (T : truthy (JStr (trim usernameInput)) = true).
    { cbn. destruct (String.eqb_spec (trim usernameInput) ""); [contradiction | reflexivity]. }
    rewrite T. repeat split.
Qed.

End LoginFurther.

(** ** Submitting at the edges *)

Section SubmitEdges.
Import App.

(** Without a quiz that is an array (no quiz at all, or another value),
    submitting attaches no results and leaves the backend alone. *)
Theorem submit_needs_a_quiz (now : string) (b : backend) (s : state) :
  (forall qs, quizData s <> Some (JArr qs)) ->
  (handleSubmitQuiz now b s).2 = b /\
  results (handleSubmitQuiz now b s).1 = results s.
Proof.
  intros H.
  destruct (submit_cases now b s)
    as [[_ ->]|[(a & _ & _ & ->)|[(a & _ & _ & _ & ->)|(a & qs & entries & sc & _ & _ & Q & _)]]];
    try (split; reflexivity).
  destruct (H qs Q).
Qed.

Lemma submit_needs_a_quiz_witness :
  (handleSubmitQuiz "2025-01-01T00:00:00.000Z" (replying JNull) idle).2 = replying JNull.
Proof.
  apply (submit_needs_a_quiz "2025-01-01T00:00:00.000Z" (replying JNull) idle).
  intros qs H. discriminate H.
Defined.

(** A user whose name is inherited from [Object.prototype] and not stored
    in the file: a complete quiz is scored and the results are shown, but
    the attempt is lost.  The request to the backend fails, the file is
    not written, and the session shows no message about it. *)
Theorem submit_under_inherited_name_is_lost (now : string) (b : backend) (s : state)
    (qs : list json) (ans : list Z) (u : string) :
  quizData s = Some (JArr qs) -> userAnswers s = Some (Chosen <$> ans) ->
  length ans = length qs -> Forall answerable qs ->
  currentUser s = Some u -> u ∈ Object_prototype -> topic s <> "" ->
  Server.readDb (storage b) !! u = None ->
  phase_of (handleSubmitQuiz now b s).1 = Scored /\
  error (handleSubmitQuiz now b s).1 = error s /\
  storage (handleSubmitQuiz now b s).2 = storage b.
Proof.
  intros Q E Hl Hall Hu Hp Htop Hd.
  destruct (submit_effect now b s qs ans Q E Hl Hall) as [entries ->].
  cbn [fst snd storage with_storage]. split; [reflexivity|]. split; [reflexivity|].
  assert (Hne : u <> "").
  { intros ->. apply (bool_decide_eq_true_2 _) in Hp. discriminate Hp. }
  rewrite (save_score_checked (newScoreData s _ _ now) u _ Hu Hne (truthy_topic _ Htop)).
  unfold history, get. rewrite Hd, (bool_decide_eq_true_2 _ Hp). reflexivity.
Qed.

Lemma submit_under_inherited_name_is_lost_witness :
  storage (handleSubmitQuiz "2025-01-01T00:00:00.000Z" (replying JNull)
             (select_from 0 [0; 0]%Z
                (setCurrentUser (Some "constructor") two_unanswered))).2
  = no_file.
Proof.
  apply (submit_under_inherited_name_is_lost "2025-01-01T00:00:00.000Z" (replying JNull) _
           [sample_question "first" 0; sample_question "second" 3] [0; 0]%Z "constructor");
    try reflexivity; try discriminate.
  - repeat constructor; apply answerable_sample.
  - apply (bool_decide_unpack _). reflexivity.
Defined.

End SubmitEdges.
